(** * icdl.models.build_backone: [create_model] and [build_backbone]

    A shallow embedding of [src/icdl/models/build_backone.py].

    The two functions are glue over collaborators that live elsewhere in
    the package (the model registry, the layer helpers, the checkpoint
    loader, the distributed-communication helper).  Those are taken as
    parameters, gathered in the record [collaborators]; every call the
    source makes to one of them that matters to an observer is recorded
    in a trace of events, and an exception stops the run the way it does
    in Python. *)

From Stdlib Require Import ZArith.
From stdpp Require Import gmap strings list fin_maps.

Local Open Scope string_scope.
Local Open Scope list_scope.

(** ** Python values

    Keyword arguments are dynamically typed; the values that can flow
    through [**kwargs] are modelled by a small universe. *)

Inductive value : Type :=
| VNone
| VBool (b : bool)
| VInt (z : Z)
| VFloat (bits : Z)   (* an IEEE double, kept as its bit pattern; never computed on *)
| VStr (s : string)
| VObj (id : positive). (* any other object (a layer class, a module), known by identity *)

(** [v is None] *)
Definition is_none (v : value) : bool :=
  match v with VNone => true | _ => false end.

(** [v == s] for a string literal [s] *)
Definition py_eq_str (v : value) (s : string) : bool :=
  match v with VStr s' => String.eqb s' s | _ => false end.

(** [v in l] for a list [l] of string literals *)
Definition py_in_strs (v : value) (l : list string) : bool :=
  existsb (py_eq_str v) l.

(** what the conversion [%f] of the operator [%] does with its operand:
    format it, refuse it ([TypeError]: not a real number), fail on an
    [int] beyond the range of a double ([OverflowError]), or let through
    an exception raised by the [__float__] of the operand *)
Inductive conversion : Type :=
| Converts
| NotANumber
| TooLarge
| ConversionRaises (e : string).

(** whether [float(z)] exists for an [int]: the conversion rounds to the
    nearest double and overflows from [2**1024 - 2**970] on *)
Definition int_fits_double (z : Z) : bool :=
  (Z.abs z <? 2 ^ 1024 - 2 ^ 970)%Z.

(** truth value of a [str] *)
Definition str_truthy (s : string) : bool :=
  match s with EmptyString => false | String _ _ => true end.

(** ** Dictionaries of keyword arguments *)

Abbreviation kwargs_t := (gmap string value).

(** [d.pop(k, default)]: the value found (or the default) and the dict
    without the key *)
Definition dict_pop (k : string) (default : value) (d : kwargs_t)
  : value * kwargs_t :=
  (from_option id default (d !! k), delete k d).

(** [d.get(k, default)] *)
Definition dict_get (k : string) (default : value) (d : kwargs_t) : value :=
  from_option id default (d !! k).

(** [{k: v for k, v in d.items() if v is not None}] *)
Definition drop_none (d : kwargs_t) : kwargs_t :=
  filter (λ kv : string * value, is_none kv.2 = false) d.

(** ** Exceptions *)

Inductive exn : Type :=
| RuntimeError (msg : string)   (* raised by this module *)
| TypeError                     (* raised by the interpreter: bad [%f] operand,
                                   repeated keyword in a call *)
| OverflowError                 (* raised by the interpreter: [%f] of an [int]
                                   too large for a double *)
| Propagated (e : string).      (* raised inside a collaborator *)

(** the three flags handed to [set_layer_config] *)
Record layer_config : Type := LayerConfig {
  lc_scriptable : value;
  lc_exportable : value;
  lc_no_jit : value
}.

Section Model.

(** the type of model objects built by the registered constructors *)
Context {model : Type}.

(** ** Events *)

Inductive event : Type :=
| EvPrint (fmt : string) (arg : value)          (* [print(fmt.format(arg))] or [print(fmt % arg)] *)
| EvEnterLayerConfig (lc : layer_config)        (* entering [with set_layer_config(..)] *)
| EvExitLayerConfig (lc : layer_config)         (* leaving it, normally or by an exception *)
| EvGetActLayer (v : value)                     (* [get_act_layer(v)] *)
| EvGetNorm (v : value)                         (* [get_norm(v)] *)
| EvEntrypoint (name : string)                  (* [model_entrypoint(name)] *)
| EvConstruct (name : string) (args : kwargs_t) (* the constructor registered as [name], called with keywords [args] *)
| EvLoadCheckpoint (m : model) (path : string). (* [load_checkpoint(m, path)] *)

(** ** The collaborators

    Code of the package outside this file.  A collaborator that can
    raise returns [inl e]. [get_act_layer] and the constructors read the
    layer configuration that is in force when they are called.
    [float_of_object] says what the conversion [%f] does with an object
    that the model knows by identity only (a [Decimal], a [Fraction] or
    a numpy scalar converts, a 1-tuple is unpacked, a class is refused). *)

Record collaborators : Type := Collaborators {
  is_model : string → bool;
  is_model_in_modules : string → list string → bool;
  model_entrypoint : string → layer_config → kwargs_t → string + model;
  load_checkpoint : model → string → string + unit;
  get_act_layer : layer_config → value → string + value;
  get_norm : value → string + value;
  get_world_size : Z;
  float_of_object : positive → conversion
}.

(** [fmt % v] for a format with the single conversion [%f] (lines 61-62) *)
Definition percent_f (c : collaborators) (v : value) : conversion :=
  match v with
  | VBool _ | VFloat _ => Converts
  | VInt z => if int_fits_double z then Converts else TooLarge
  | VNone | VStr _ => NotANumber
  | VObj o => float_of_object c o
  end.

(** ** A trace-and-exception monad *)

Definition M (A : Type) : Type := (list event * (exn + A))%type.

Definition ret {A} (a : A) : M A := ([], inr a).

Definition raise {A} (e : exn) : M A := ([], inl e).

Definition bind {A B} (m : M A) (f : A → M B) : M B :=
  match m with
  | (t, inl e) => (t, inl e)
  | (t, inr a) => let '(t', r) := f a in (t ++ t', r)
  end.

Notation "'let*' x ':=' m 'in' k" := (bind m (λ x, k))
  (at level 10, x name, m at level 100, k at level 200).

(** a call to a collaborator: the call is recorded, then its outcome
    is the collaborator's *)
Definition call {A} (ev : event) (r : string + A) : M A :=
  ([ev], match r with inl e => inl (Propagated e) | inr a => inr a end).

Definition print (fmt : string) (arg : value) : M unit :=
  ([EvPrint fmt arg], inr tt).

(** [with set_layer_config(..): body]: the exit runs on every way out *)
Definition with_layer_config {A} (lc : layer_config) (body : M A) : M A :=
  let '(t, r) := body in (EvEnterLayerConfig lc :: t ++ [EvExitLayerConfig lc], r).

(** a call that unpacks two dicts as keywords: a keyword given twice is
    a [TypeError] *)
Definition merge_kwargs (a b : kwargs_t) : M kwargs_t :=
  if decide (a ##ₘ b) then ret (a ∪ b) else raise TypeError.

Definition trace {A} (m : M A) : list event := m.1.
Definition outcome {A} (m : M A) : exn + A := m.2.

(** ** [create_model] (lines 9-80) *)

Definition model_args_of (pretrained num_classes in_chans : value) : kwargs_t :=
  <["in_chans" := in_chans]>
    (<["num_classes" := num_classes]> (<["pretrained" := pretrained]> ∅)).

Definition create_model (c : collaborators) (model_name : string)
    (pretrained num_classes in_chans : value) (checkpoint_path : string)
    (scriptable exportable no_jit : value) (kwargs : kwargs_t) : M model :=
  let model_args := model_args_of pretrained num_classes in_chans in
  let lc := LayerConfig scriptable exportable no_jit in
  let is_efficientnet :=
    is_model_in_modules c model_name ["efficientnet"; "mobilenetv3"] in
  let* kwargs :=
    (if negb is_efficientnet then
       let kwargs := (dict_pop "bn_tf" VNone kwargs).2 in
       let kwargs := (dict_pop "bn_momentum" VNone kwargs).2 in
       let kwargs := (dict_pop "bn_eps" VNone kwargs).2 in
       with_layer_config lc
         (let '(act_layer, kwargs) := dict_pop "act_layer" (VStr "relu") kwargs in
          let* layer := call (EvGetActLayer act_layer) (get_act_layer c lc act_layer) in
          ret (<["act_layer" := layer]> kwargs))
     else ret kwargs) in
  let gpus := get_world_size c in
  let '(norm_layer, kwargs) := dict_pop "norm_layer" (VStr "BN") kwargs in
  let* norm_layer :=
    (if (1 <? gpus)%Z && negb (py_in_strs norm_layer ["SyncBN"; "nnSyncBN"; "naiveSyncBN"])
     then
       let* _ := print "conver norm_layer {} to SyncBN" norm_layer in
       ret (VStr "SyncBN")
     else ret norm_layer) in
  let* norm := call (EvGetNorm norm_layer) (get_norm c norm_layer) in
  let kwargs := <["norm_layer" := norm]> kwargs in
  let '(drop_connect_rate, kwargs) := dict_pop "drop_connect_rate" VNone kwargs in
  let* kwargs :=
    (if negb (is_none drop_connect_rate)
        && is_none (dict_get "drop_path_rate" VNone kwargs)
     then
       let* _ :=
         match percent_f c drop_connect_rate with
         | Converts =>
             print ("WARNING: 'drop_connect' as an argument is deprecated, please use 'drop_path'."
                    +:+ " Setting drop_path to %f.") drop_connect_rate
         | NotANumber => raise TypeError
         | TooLarge => raise OverflowError
         | ConversionRaises e => raise (Propagated e)
         end in
       ret (<["drop_path_rate" := drop_connect_rate]> kwargs)
     else ret kwargs) in
  let kwargs := drop_none kwargs in
  let* model :=
    with_layer_config lc
      (if is_model c model_name then
         let* create_fn :=
           ([EvEntrypoint model_name], inr (model_entrypoint c model_name)) in
         let* args := merge_kwargs model_args kwargs in
         call (EvConstruct model_name args) (create_fn lc args)
       else raise (RuntimeError ("Unknown model (" +:+ model_name +:+ ")"))) in
  let* _ :=
    (if str_truthy checkpoint_path
     then call (EvLoadCheckpoint model checkpoint_path)
               (load_checkpoint c model checkpoint_path)
     else ret tt) in
  ret model.

(** ** The configuration node read by [build_backbone] *)

Record model_node : Type := ModelNode {
  BACKBONE : string;
  CLASSES : value;
  BACKBONE_WEIGHTS : string;
  OPT : value;
  NORM_LAYER : value;
  ACTIVATE : value;
  POOLING_LAYER : value
}.

Record train_node : Type := TrainNode {
  INPUT_CHANNEL : value
}.

Record cfg_node : Type := CfgNode {
  MODEL : model_node;
  TRAIN : train_node
}.

(** the keywords [norm_layer=.., act_layer=.., global_pool=..] of the call *)
Definition backbone_kwargs (cfg : cfg_node) : kwargs_t :=
  <["global_pool" := POOLING_LAYER (MODEL cfg)]>
    (<["act_layer" := ACTIVATE (MODEL cfg)]>
       (<["norm_layer" := NORM_LAYER (MODEL cfg)]> ∅)).

(** ** [build_backbone] (lines 83-105) *)

Definition build_backbone (c : collaborators) (cfg : cfg_node) : M model :=
  let scriptable := false in
  let exportable := false in
  let no_jit := false in
  let '(no_jit, scriptable) :=
    if py_eq_str (OPT (MODEL cfg)) "infer" then (true, true)
    else if py_eq_str (OPT (MODEL cfg)) "jit" then (false, true)
    else (no_jit, scriptable) in
  create_model c (BACKBONE (MODEL cfg))
    (VBool true)
    (CLASSES (MODEL cfg))
    (INPUT_CHANNEL (TRAIN cfg))
    (BACKBONE_WEIGHTS (MODEL cfg))
    (VBool scriptable)
    (VBool exportable)
    (VBool no_jit)
    (backbone_kwargs cfg).

(** ** The keyword dictionary of the constructor call, as a pure function

    Lines 38-68 with the trace erased: what [create_model] has in
    [kwargs] when it reaches the registry lookup, or the exception that
    stopped it before. *)

(** lines 51-55: the name handed to [get_norm] *)
Definition resolved_norm (gpus : Z) (requested : value) : value :=
  if (1 <? gpus)%Z && negb (py_in_strs requested ["SyncBN"; "nnSyncBN"; "naiveSyncBN"])
  then VStr "SyncBN" else requested.

(** lines 39-48 *)
Definition act_stage (c : collaborators) (model_name : string)
    (lc : layer_config) (kwargs : kwargs_t) : exn + kwargs_t :=
  if negb (is_model_in_modules c model_name ["efficientnet"; "mobilenetv3"]) then
    let kwargs := delete "bn_eps" (delete "bn_momentum" (delete "bn_tf" kwargs)) in
    match get_act_layer c lc (dict_get "act_layer" (VStr "relu") kwargs) with
    | inl e => inl (Propagated e)
    | inr layer => inr (<["act_layer" := layer]> (delete "act_layer" kwargs))
    end
  else inr kwargs.

(** lines 51-56 *)
Definition norm_stage (c : collaborators) (kwargs : kwargs_t) : exn + kwargs_t :=
  let requested := dict_get "norm_layer" (VStr "BN") kwargs in
  match get_norm c (resolved_norm (get_world_size c) requested) with
  | inl e => inl (Propagated e)
  | inr norm => inr (<["norm_layer" := norm]> (delete "norm_layer" kwargs))
  end.

(** lines 59-63 *)
Definition drop_stage (c : collaborators) (kwargs : kwargs_t) : exn + kwargs_t :=
  let drop_connect_rate := dict_get "drop_connect_rate" VNone kwargs in
  let kwargs := delete "drop_connect_rate" kwargs in
  if negb (is_none drop_connect_rate)
     && is_none (dict_get "drop_path_rate" VNone kwargs)
  then
    match percent_f c drop_connect_rate with
    | Converts => inr (<["drop_path_rate" := drop_connect_rate]> kwargs)
    | NotANumber => inl TypeError
    | TooLarge => inl OverflowError
    | ConversionRaises e => inl (Propagated e)
    end
  else inr kwargs.

Definition normalized_kwargs (c : collaborators) (model_name : string)
    (lc : layer_config) (kwargs : kwargs_t) : exn + kwargs_t :=
  match act_stage c model_name lc kwargs with
  | inl e => inl e
  | inr kwargs =>
      match norm_stage c kwargs with
      | inl e => inl e
      | inr kwargs =>
          match drop_stage c kwargs with
          | inl e => inl e
          | inr kwargs => inr (drop_none kwargs)
          end
      end
  end.

(** an event that comes before the constructor call and the checkpoint
    load *)
Definition setup_event (ev : event) : Prop :=
  match ev with
  | EvConstruct _ _ | EvLoadCheckpoint _ _ => False
  | _ => True
  end.

(** the condition of line 53, in words *)
Definition sync_needed (gpus : Z) (requested : value) : Prop :=
  (1 < gpus)%Z
  /\ ~ In requested [VStr "SyncBN"; VStr "nnSyncBN"; VStr "naiveSyncBN"].

(** ** Shapes of traces *)

(** an event of the argument normalisation (lines 38-68): anything but
    the registry lookup, the constructor call and the checkpoint load *)
Definition prep_event (ev : event) : Prop :=
  match ev with
  | EvEntrypoint _ | EvConstruct _ _ | EvLoadCheckpoint _ _ => False
  | _ => True
  end.

(** whether a trace respects the two [with set_layer_config] blocks:
    a block is entered only outside a block and left only inside one,
    [get_act_layer], the registry lookup and the constructor are called
    inside a block, [get_norm], [load_checkpoint] and [print] outside,
    and no block is left open; [inside] says whether a block is open *)
Fixpoint scoped (inside : bool) (t : list event) : bool :=
  match t with
  | [] => negb inside
  | EvEnterLayerConfig _ :: t' => negb inside && scoped true t'
  | EvExitLayerConfig _ :: t' => inside && scoped false t'
  | EvGetActLayer _ :: t' | EvEntrypoint _ :: t' | EvConstruct _ _ :: t' =>
      inside && scoped inside t'
  | EvGetNorm _ :: t' | EvLoadCheckpoint _ _ :: t' | EvPrint _ _ :: t' =>
      negb inside && scoped inside t'
  end.

(** the place of a collaborator call in the text of [create_model] *)
Definition call_rank (ev : event) : option nat :=
  match ev with
  | EvGetActLayer _ => Some 1%nat
  | EvGetNorm _ => Some 2%nat
  | EvEntrypoint _ => Some 3%nat
  | EvConstruct _ _ => Some 4%nat
  | EvLoadCheckpoint _ _ => Some 5%nat
  | _ => None
  end.

Fixpoint increasing (l : list nat) : bool :=
  match l with
  | x :: l' =>
      match l' with
      | y :: _ => (x <? y)%nat && increasing l'
      | [] => true
      end
  | [] => true
  end.

(** the two messages of [create_model] *)
Definition conversion_message : string := "conver norm_layer {} to SyncBN".

Definition deprecation_message : string :=
  "WARNING: 'drop_connect' as an argument is deprecated, please use 'drop_path'."
  +:+ " Setting drop_path to %f.".

(** the keywords that lines 38-63 read or write *)
Definition handled_keywords : list string :=
  ["act_layer"; "bn_tf"; "bn_momentum"; "bn_eps"; "norm_layer";
   "drop_connect_rate"; "drop_path_rate"].

End Model.

(** * A sample environment *)

(** a model object that remembers the constructor that built it and
    the keywords it was given *)
Definition sample_model : Type := string * gmap string value.

(** a name-to-layer table in the style of the layer helpers: the empty
    name gives [None], an unknown name raises, and anything that is not
    a name is returned as it is *)
Definition sample_layers (table : gmap string positive) (v : value)
  : string + value :=
  match v with
  | VStr s =>
      if String.eqb s "" then inr VNone
      else match table !! s with
           | Some id => inr (VObj id)
           | None => inl "KeyError"
           end
  | _ => inr v
  end.

Definition sample_norms : gmap string positive :=
  list_to_map [("BN", 1); ("SyncBN", 2); ("nnSyncBN", 3); ("naiveSyncBN", 4)]%positive.

Definition sample_acts : gmap string positive :=
  list_to_map [("relu", 11); ("swish", 12)]%positive.

Definition sample_env (gpus : Z) : @collaborators sample_model := {|
  is_model name := bool_decide (name ∈ ["resnet50"; "efficientnet_b0"]);
  is_model_in_modules name modules :=
    String.eqb name "efficientnet_b0" && bool_decide ("efficientnet" ∈ modules);
  model_entrypoint name lc args := inr (name, args);
  load_checkpoint m path :=
    if String.eqb path "missing.pth" then inl "FileNotFoundError" else inr tt;
  get_act_layer lc v := sample_layers sample_acts v;
  get_norm v := sample_layers sample_norms v;
  get_world_size := gpus;
  float_of_object _ := NotANumber
|}.

(** the defaults of the signature (lines 11-17) *)
Definition default_args : gmap string value :=
  model_args_of (VBool false) (VInt 1000) (VInt 3).

Definition default_config : layer_config := LayerConfig VNone VNone VNone.

(** [create_model(model_name, checkpoint_path=path, **kwargs)] *)
Definition create_model_default {model} (c : @collaborators model)
    (model_name : string) (checkpoint_path : string) (kwargs : gmap string value)
  : M model :=
  create_model c model_name (VBool false) (VInt 1000) (VInt 3) checkpoint_path
    VNone VNone VNone kwargs.

Definition dict (l : list (string * value)) : gmap string value := list_to_map l.

(** a configuration node for [build_backbone] *)
Definition sample_cfg (opt : value) : cfg_node :=
  CfgNode
    (ModelNode "resnet50" (VInt 10) "weights.pth" opt (VStr "BN") (VStr "relu")
       (VStr "avg"))
    (TrainNode (VInt 3)).

(** the sample environment with constructors that reject the keyword
    [depth] *)
Definition picky_env (gpus : Z) : @collaborators sample_model := {|
  is_model := is_model (sample_env gpus);
  is_model_in_modules := is_model_in_modules (sample_env gpus);
  model_entrypoint name lc args :=
    if bool_decide (is_Some (args !! "depth")) then inl "TypeError"
    else inr (name, args);
  load_checkpoint := load_checkpoint (sample_env gpus);
  get_act_layer := get_act_layer (sample_env gpus);
  get_norm := get_norm (sample_env gpus);
  get_world_size := gpus;
  float_of_object := float_of_object (sample_env gpus)
|}.

Section Facts.

Context {model : Type}.
Implicit Types (c : @collaborators model).

(** * Reasoning about runs *)

Ltac cm_unfold :=
  unfold create_model, normalized_kwargs, act_stage, norm_stage, drop_stage,
    resolved_norm, merge_kwargs, dict_pop, dict_get; cbn [fst snd].

Ltac cm_red :=
  cbn [bind ret raise call print with_layer_config trace outcome fst snd app negb].

Ltac cm_step :=
  cm_red;
  match goal with
  | |- context [is_model_in_modules ?c ?n ?l] => destruct (is_model_in_modules c n l) eqn:?
  | |- context [get_act_layer ?c ?lc ?v] => destruct (get_act_layer c lc v) eqn:?
  | |- context [andb (Z.ltb 1 ?g) ?b] => destruct (andb (Z.ltb 1 g) b) eqn:?
  | |- context [get_norm ?c ?v] => destruct (get_norm c v) eqn:?
  | |- context [andb (negb (is_none ?a)) ?b] => destruct (andb (negb (is_none a)) b) eqn:?
  | |- context [percent_f ?c ?v] => destruct (percent_f c v) eqn:?
  | |- context [is_model ?c ?n] => destruct (is_model c n) eqn:?
  | |- context [decide (?a ##ₘ ?b)] => destruct (decide (a ##ₘ b))
  | |- context [model_entrypoint ?c ?n ?lc ?a] => destruct (model_entrypoint c n lc a) eqn:?
  | |- context [str_truthy ?p] => destruct (str_truthy p) eqn:?
  | |- context [load_checkpoint ?c ?m ?p] => destruct (load_checkpoint c m p) eqn:?
  end.

Ltac cm_run := cm_unfold; repeat cm_step; cm_red; cbn [In].

Ltac in_cases H := repeat (destruct H as [H|H]; try discriminate H); try contradiction.
Ltac in_here := solve [repeat first [left; reflexivity | right]].

(** splitting a concrete trace at its constructor call *)
Ltac split_at_construct l k :=
  lazymatch l with
  | EvConstruct ?n ?a :: ?r => k (@nil (@event model)) r
  | ?x :: ?l' => split_at_construct l' ltac:(fun pre post => k (x :: pre) post)
  end.

(** the constructor is called exactly on the normalised keywords of a
    registered name *)
Lemma construct_iff c name p n i path s e j kwargs nm a :
  In (EvConstruct nm a) (trace (create_model c name p n i path s e j kwargs)) <->
  nm = name /\ is_model c name = true /\
  exists kw, normalized_kwargs c name (LayerConfig s e j) kwargs = inr kw /\
    model_args_of p n i ##ₘ kw /\ a = model_args_of p n i ∪ kw.
Proof.
  cm_run.
  all: split;
    [ intros H; in_cases H; simplify_eq; eauto 10
    | intros (? & ? & ? & ? & ? & ?); simplify_eq; try contradiction; try in_here ].
Qed.

Lemma entrypoint_iff c name p n i path s e j kwargs nm :
  In (EvEntrypoint nm) (trace (create_model c name p n i path s e j kwargs)) <->
  nm = name /\ is_model c name = true /\
  exists kw, normalized_kwargs c name (LayerConfig s e j) kwargs = inr kw.
Proof.
  cm_run.
  all: split;
    [ intros H; in_cases H; simplify_eq; eauto 10
    | intros (? & ? & ? & ?); simplify_eq; try in_here ].
Qed.

Lemma layer_config_events c name p n i path s e j kwargs lc :
  In (EvEnterLayerConfig lc) (trace (create_model c name p n i path s e j kwargs)) ->
  lc = LayerConfig s e j.
Proof.
  cm_run.
  all: intros H; in_cases H; simplify_eq; reflexivity.
Qed.

(** the outcome when the name is not registered *)
Lemma unregistered_outcome c name p n i path s e j kwargs :
  is_model c name = false ->
  match normalized_kwargs c name (LayerConfig s e j) kwargs with
  | inl err => outcome (create_model c name p n i path s e j kwargs) = inl err
  | inr _ => outcome (create_model c name p n i path s e j kwargs)
             = inl (RuntimeError ("Unknown model (" +:+ name +:+ ")"))
  end.
Proof.
  cm_run. all: intros; simplify_eq; reflexivity.
Qed.

Lemma registered_outcome c name p n i path s e j kwargs msg :
  is_model c name = true ->
  outcome (create_model c name p n i path s e j kwargs) <> inl (RuntimeError msg).
Proof.
  cm_run. all: intros; simplify_eq; discriminate.
Qed.

(** the whole run once the arguments are normalised and the name is
    registered *)
Lemma registered_run c name p n i path s e j kwargs :
  let lc := LayerConfig s e j in
  let run := create_model c name p n i path s e j kwargs in
  is_model c name = true ->
  match normalized_kwargs c name lc kwargs with
  | inl _ => True
  | inr kw =>
      model_args_of p n i ##ₘ kw ->
      let args := model_args_of p n i ∪ kw in
      exists t0, Forall setup_event t0 /\
        match model_entrypoint c name lc args with
        | inl err =>
            trace run = t0 ++ [EvConstruct name args; EvExitLayerConfig lc]
            /\ outcome run = inl (Propagated err)
        | inr m =>
            if str_truthy path then
              trace run = t0 ++ [EvConstruct name args; EvExitLayerConfig lc;
                                 EvLoadCheckpoint m path]
              /\ outcome run =
                 match load_checkpoint c m path with
                 | inl err => inl (Propagated err)
                 | inr _ => inr m
                 end
            else
              trace run = t0 ++ [EvConstruct name args; EvExitLayerConfig lc]
              /\ outcome run = inr m
        end
  end.
Proof.
  intros lc run; subst lc run.
  cm_run.
  all: try exact (fun _ => I).
  all: intros; simplify_eq; try contradiction.
  all: lazymatch goal with
       | |- exists t0, _ /\ (?l = _ /\ _) =>
           split_at_construct l ltac:(fun pre post => exists pre)
       end.
  all: (split; [ repeat constructor | split; reflexivity ]).
Qed.

(** [get_act_layer] is called only outside the efficientnet and
    mobilenetv3 modules, and then before the constructor *)
Lemma act_layer_event c name p n i path s e j kwargs v :
  In (EvGetActLayer v) (trace (create_model c name p n i path s e j kwargs)) ->
  is_model_in_modules c name ["efficientnet"; "mobilenetv3"] = false
  /\ v = dict_get "act_layer" (VStr "relu") kwargs.
Proof.
  cm_unfold. rewrite !lookup_delete_ne by done. repeat cm_step; cm_red; cbn [In].
  all: intros H; in_cases H; simplify_eq; split; reflexivity.
Qed.


(** * The normalised keywords, key by key *)

Lemma lookup_drop_none (d : kwargs_t) (k : string) :
  drop_none d !! k =
  match d !! k with
  | Some v => if is_none v then None else Some v
  | None => None
  end.
Proof.
  unfold drop_none. rewrite map_lookup_filter.
  destruct (d !! k) as [v|]; [|reflexivity].
  destruct v; reflexivity.
Qed.

Lemma drop_none_not_none (d : kwargs_t) (k : string) :
  drop_none d !! k <> Some VNone.
Proof.
  rewrite lookup_drop_none. destruct (d !! k) as [[]|]; cbn; congruence.
Qed.

Lemma model_args_lookup_other p n i (k : string) :
  k <> "pretrained" -> k <> "num_classes" -> k <> "in_chans" ->
  model_args_of p n i !! k = None.
Proof.
  intros. unfold model_args_of.
  rewrite !lookup_insert_ne by done. apply lookup_empty.
Qed.

Lemma model_args_lookup p n i :
  model_args_of p n i !! "pretrained" = Some p
  /\ model_args_of p n i !! "num_classes" = Some n
  /\ model_args_of p n i !! "in_chans" = Some i.
Proof.
  unfold model_args_of. split; [|split].
  - rewrite !lookup_insert_ne by done. apply lookup_insert_eq.
  - rewrite lookup_insert_ne by done. apply lookup_insert_eq.
  - apply lookup_insert_eq.
Qed.

Lemma normalized_inv c name lc kwargs kw :
  normalized_kwargs c name lc kwargs = inr kw ->
  exists kw1 kw2 kw3,
    act_stage c name lc kwargs = inr kw1
    /\ norm_stage c kw1 = inr kw2
    /\ drop_stage c kw2 = inr kw3
    /\ kw = drop_none kw3.
Proof.
  unfold normalized_kwargs.
  destruct (act_stage c name lc kwargs) as [|kw1] eqn:H1; [discriminate|].
  destruct (norm_stage c kw1) as [|kw2] eqn:H2; [discriminate|].
  destruct (drop_stage c kw2) as [|kw3] eqn:H3; [discriminate|].
  intros [= <-]. by exists kw1, kw2, kw3.
Qed.

(** lines 39-48 touch four keys only *)
Lemma act_stage_frame c name lc kwargs kw1 (k : string) :
  act_stage c name lc kwargs = inr kw1 ->
  k <> "act_layer" -> k <> "bn_tf" -> k <> "bn_momentum" -> k <> "bn_eps" ->
  kw1 !! k = kwargs !! k.
Proof.
  unfold act_stage, dict_get. intros H ? ? ? ?.
  destruct (negb _); [|congruence].
  destruct (get_act_layer _ _ _); [discriminate|].
  injection H as <-.
  rewrite lookup_insert_ne, !lookup_delete_ne by done. reflexivity.
Qed.

Lemma act_stage_skipped c name lc kwargs :
  is_model_in_modules c name ["efficientnet"; "mobilenetv3"] = true ->
  act_stage c name lc kwargs = inr kwargs.
Proof. unfold act_stage. intros ->. reflexivity. Qed.

Lemma act_stage_resolved c name lc kwargs kw1 :
  is_model_in_modules c name ["efficientnet"; "mobilenetv3"] = false ->
  act_stage c name lc kwargs = inr kw1 ->
  exists layer,
    get_act_layer c lc (dict_get "act_layer" (VStr "relu") kwargs) = inr layer
    /\ kw1 !! "act_layer" = Some layer
    /\ kw1 !! "bn_tf" = None /\ kw1 !! "bn_momentum" = None /\ kw1 !! "bn_eps" = None.
Proof.
  unfold act_stage, dict_get. intros -> H. cbn [negb] in H.
  rewrite !lookup_delete_ne in H by done.
  destruct (get_act_layer _ _ _) as [|layer]; [discriminate|].
  injection H as <-. exists layer.
  split; [reflexivity|]. split; [apply lookup_insert_eq|].
  rewrite !lookup_insert_ne by done.
  split; [|split].
  - rewrite !lookup_delete_ne by done. apply lookup_delete_eq.
  - rewrite !lookup_delete_ne by done. apply lookup_delete_eq.
  - rewrite !lookup_delete_ne by done. apply lookup_delete_eq.
Qed.

Lemma norm_stage_inv c kw1 kw2 :
  norm_stage c kw1 = inr kw2 ->
  exists norm,
    get_norm c (resolved_norm (get_world_size c)
                  (dict_get "norm_layer" (VStr "BN") kw1)) = inr norm
    /\ kw2 = <["norm_layer" := norm]> kw1.
Proof.
  unfold norm_stage. intros H.
  destruct (get_norm _ _) as [|norm]; [discriminate|].
  injection H as <-. exists norm. split; [reflexivity|].
  apply insert_delete_eq.
Qed.

(** lines 59-63 touch two keys only *)
Lemma drop_stage_frame c kw2 kw3 (k : string) :
  drop_stage c kw2 = inr kw3 ->
  k <> "drop_connect_rate" -> k <> "drop_path_rate" ->
  kw3 !! k = kw2 !! k.
Proof.
  unfold drop_stage. intros H ? ?.
  destruct (_ && _).
  - destruct (percent_f _ _); try discriminate. injection H as <-.
    rewrite lookup_insert_ne, lookup_delete_ne by done. reflexivity.
  - injection H as <-. rewrite lookup_delete_ne by done. reflexivity.
Qed.

Lemma drop_stage_connect c kw2 kw3 :
  drop_stage c kw2 = inr kw3 -> kw3 !! "drop_connect_rate" = None.
Proof.
  unfold drop_stage. intros H.
  destruct (_ && _).
  - destruct (percent_f _ _); try discriminate. injection H as <-.
    rewrite lookup_insert_ne by done. apply lookup_delete_eq.
  - injection H as <-. apply lookup_delete_eq.
Qed.

Lemma drop_stage_path c kw2 kw3 :
  drop_stage c kw2 = inr kw3 ->
  kw3 !! "drop_path_rate" =
  if negb (is_none (dict_get "drop_connect_rate" VNone kw2))
     && is_none (dict_get "drop_path_rate" VNone kw2)
  then Some (dict_get "drop_connect_rate" VNone kw2)
  else kw2 !! "drop_path_rate".
Proof.
  unfold drop_stage, dict_get. intros H.
  rewrite lookup_delete_ne in H by done.
  destruct (_ && _).
  - destruct (percent_f _ _); try discriminate. injection H as <-.
    apply lookup_insert_eq.
  - injection H as <-. rewrite lookup_delete_ne by done. reflexivity.
Qed.

(** what the constructor is given, stage by stage *)
Lemma construct_stages c name p n i path s e j kwargs nm a :
  In (EvConstruct nm a) (trace (create_model c name p n i path s e j kwargs)) ->
  nm = name /\ is_model c name = true /\
  exists kw1 kw2 kw3,
    act_stage c name (LayerConfig s e j) kwargs = inr kw1
    /\ norm_stage c kw1 = inr kw2
    /\ drop_stage c kw2 = inr kw3
    /\ model_args_of p n i ##ₘ drop_none kw3
    /\ a = model_args_of p n i ∪ drop_none kw3.
Proof.
  intros (-> & Hreg & kw & Hkw & Hdisj & ->)%construct_iff.
  apply normalized_inv in Hkw as (kw1 & kw2 & kw3 & H1 & H2 & H3 & ->).
  split; [reflexivity|]. split; [assumption|].
  by exists kw1, kw2, kw3.
Qed.

Lemma constructor_lookup p n i (kw3 : kwargs_t) (k : string) :
  k <> "pretrained" -> k <> "num_classes" -> k <> "in_chans" ->
  (model_args_of p n i ∪ drop_none kw3) !! k =
  match kw3 !! k with
  | Some v => if is_none v then None else Some v
  | None => None
  end.
Proof.
  intros. rewrite lookup_union_r by (by apply model_args_lookup_other).
  apply lookup_drop_none.
Qed.

Lemma str_truthy_nonempty (s : string) : str_truthy s = true <-> s <> "".
Proof. destruct s; cbn; split; congruence. Qed.

Lemma py_in_strs_In (v : value) (l : list string) :
  py_in_strs v l = true <-> In v (map VStr l).
Proof.
  unfold py_in_strs. rewrite existsb_exists. split.
  - intros (x & Hx & Heq). destruct v; try discriminate.
    cbn in Heq. apply String.eqb_eq in Heq as ->. by apply in_map.
  - intros (x & <- & Hx)%in_map_iff. exists x. split; [assumption|].
    cbn. apply String.eqb_refl.
Qed.

Lemma resolved_norm_sync gpus requested :
  sync_needed gpus requested -> resolved_norm gpus requested = VStr "SyncBN".
Proof.
  intros [Hg Hn]. unfold resolved_norm.
  apply Z.ltb_lt in Hg as ->.
  destruct (py_in_strs requested _) eqn:Hin; [|reflexivity].
  apply py_in_strs_In in Hin. contradiction.
Qed.

Lemma resolved_norm_keep gpus requested :
  ~ sync_needed gpus requested -> resolved_norm gpus requested = requested.
Proof.
  intros Hn. unfold resolved_norm.
  destruct (1 <? gpus)%Z eqn:Hg; [|reflexivity].
  destruct (py_in_strs requested _) eqn:Hin; [reflexivity|].
  exfalso. apply Hn. split; [by apply Z.ltb_lt|].
  intros Hin'. apply (py_in_strs_In requested ["SyncBN"; "nnSyncBN"; "naiveSyncBN"]) in Hin'.
  congruence.
Qed.

(** * The claims *)

(** C1: when the name is not registered, [create_model] raises and no
    constructor is called (the error is the [RuntimeError] of line 75
    whenever the arguments were normalised without an exception); when
    it is registered, the run never ends in that [RuntimeError], a
    constructor call is a call of the entrypoint registered under
    [model_name] on the normalised keywords, and that call is made,
    after the registry lookup, whenever the normalisation completes. *)
Theorem create_model_registry_dispatch
    c name p n i path s e j kwargs :
  let lc := LayerConfig s e j in
  let run := create_model c name p n i path s e j kwargs in
  (is_model c name = false ->
     (exists err, outcome run = inl err)
     /\ (forall kw, normalized_kwargs c name lc kwargs = inr kw ->
           outcome run = inl (RuntimeError ("Unknown model (" +:+ name +:+ ")")))
     /\ (forall nm a, ~ In (EvConstruct nm a) (trace run)))
  /\ (is_model c name = true ->
     (forall msg, outcome run <> inl (RuntimeError msg))
     /\ (forall nm a, In (EvConstruct nm a) (trace run) ->
           nm = name /\ In (EvEntrypoint name) (trace run)
           /\ exists kw, normalized_kwargs c name lc kwargs = inr kw
                /\ a = model_args_of p n i ∪ kw)
     /\ (forall kw, normalized_kwargs c name lc kwargs = inr kw ->
           model_args_of p n i ##ₘ kw ->
           In (EvEntrypoint name) (trace run)
           /\ In (EvConstruct name (model_args_of p n i ∪ kw)) (trace run))).
Proof.
  intros lc run. split; intros Hreg.
  - pose proof (unregistered_outcome c name p n i path s e j kwargs Hreg) as Hout.
    fold lc run in Hout. split; [|split].
    + destruct (normalized_kwargs c name lc kwargs); eauto.
    + intros kw Hkw. rewrite Hkw in Hout. exact Hout.
    + intros nm a (_ & Hreg' & _)%construct_iff. congruence.
  - split; [|split].
    + intros msg. by apply registered_outcome.
    + intros nm a Hin. pose proof Hin as (-> & _ & kw & Hkw & _ & ->)%construct_iff.
      split; [reflexivity|]. split; [|by exists kw].
      apply entrypoint_iff. eauto.
    + intros kw Hkw Hdisj. split.
      * apply entrypoint_iff. eauto.
      * apply construct_iff. eauto 10.
Qed.

(** C2 (amended): at every constructor call, [get_norm] has returned a
    value [norm] for ['SyncBN'] when the world size exceeds 1 and the
    requested name (default ['BN']) is none of ['SyncBN'], ['nnSyncBN'],
    ['naiveSyncBN'], and for the requested name otherwise; the
    constructor receives [norm_layer = norm] unless [norm] is [None], in
    which case it receives no [norm_layer] keyword. *)
Theorem create_model_norm_layer
    c name p n i path s e j kwargs nm a :
  let requested := dict_get "norm_layer" (VStr "BN") kwargs in
  In (EvConstruct nm a) (trace (create_model c name p n i path s e j kwargs)) ->
  exists norm,
    (sync_needed (get_world_size c) requested ->
       get_norm c (VStr "SyncBN") = inr norm)
    /\ (~ sync_needed (get_world_size c) requested ->
       get_norm c requested = inr norm)
    /\ (norm <> VNone -> a !! "norm_layer" = Some norm)
    /\ (norm = VNone -> a !! "norm_layer" = None).
Proof.
  intros requested (-> & _ & kw1 & kw2 & kw3 & H1 & H2 & H3 & _ & ->)%construct_stages.
  apply norm_stage_inv in H2 as (norm & Hnorm & ->).
  assert (dict_get "norm_layer" (VStr "BN") kw1 = requested) as Hreq.
  { unfold requested, dict_get.
    by rewrite (act_stage_frame _ _ _ _ _ "norm_layer" H1). }
  rewrite Hreq in Hnorm. exists norm.
  assert ((model_args_of p n i ∪ drop_none kw3) !! "norm_layer"
          = if is_none norm then None else Some norm) as Hlook.
  { rewrite constructor_lookup by done.
    rewrite (drop_stage_frame _ _ _ "norm_layer" H3) by done.
    by rewrite lookup_insert_eq. }
  split; [|split; [|split]].
  - intros Hs. by rewrite <- (resolved_norm_sync _ _ Hs).
  - intros Hs. by rewrite <- (resolved_norm_keep _ _ Hs) at 1.
  - intros Hn. rewrite Hlook. by destruct norm.
  - intros ->. by rewrite Hlook.
Qed.

(** C3: once the constructor of a registered name has produced a model
    [m], [load_checkpoint m checkpoint_path] is called exactly when
    [checkpoint_path] is not the empty string, once, as the last event
    of the run and so after the constructor call; nothing else is ever
    loaded, and a value that [create_model] returns is [m] (it returns
    [m] unless [load_checkpoint] itself raises). *)
Theorem create_model_checkpoint
    c name p n i path s e j kwargs nm a m :
  let lc := LayerConfig s e j in
  let run := create_model c name p n i path s e j kwargs in
  In (EvConstruct nm a) (trace run) ->
  model_entrypoint c name lc a = inr m ->
  is_model c name = true
  /\ (exists t0,
        Forall setup_event t0
        /\ trace run = t0 ++ [EvConstruct name a; EvExitLayerConfig lc]
                          ++ (if str_truthy path then [EvLoadCheckpoint m path] else []))
  /\ (path <> "" <-> In (EvLoadCheckpoint m path) (trace run))
  /\ (forall m' path', In (EvLoadCheckpoint m' path') (trace run) ->
        m' = m /\ path' = path /\ path <> "")
  /\ (forall r, outcome run = inr r -> r = m)
  /\ (path = "" -> outcome run = inr m)
  /\ (outcome run = inr m
      \/ exists err, path <> "" /\ load_checkpoint c m path = inl err
                     /\ outcome run = inl (Propagated err)).
Proof.
  intros lc run Hin Hm.
  pose proof Hin as (-> & Hreg & kw & Hkw & Hdisj & ->)%construct_iff.
  pose proof (registered_run c name p n i path s e j kwargs Hreg) as Hrun.
  cbv zeta in Hrun. fold lc run in Hrun, Hkw, Hm.
  rewrite Hkw in Hrun. specialize (Hrun Hdisj) as (t0 & Ht0 & Hrun).
  rewrite Hm in Hrun.
  assert (Hnot : forall m' path', ~ In (EvLoadCheckpoint m' path') t0).
  { intros m' path' Hl. rewrite Forall_forall in Ht0.
    apply list_elem_of_In in Hl. exact (Ht0 _ Hl). }
  split; [assumption|].
  destruct (str_truthy path) eqn:Hpath.
  - destruct Hrun as [Htr Hout].
    assert (path <> "") as Hne by (by apply str_truthy_nonempty).
    split; [by exists t0|]. split; [|split; [|split; [|split]]].
    + split; [|done]. intros _. rewrite Htr. apply in_or_app. right.
      cbn. auto.
    + intros m' path'. rewrite Htr. intros [Hl|Hl]%in_app_or.
      * by apply Hnot in Hl.
      * cbn in Hl. destruct Hl as [Hl|[Hl|[Hl|[]]]]; try discriminate.
        by injection Hl as <- <-.
    + intros r. rewrite Hout. destruct (load_checkpoint c m path); congruence.
    + intros ->. discriminate.
    + rewrite Hout. destruct (load_checkpoint c m path) as [err|]; eauto.
  - destruct Hrun as [Htr Hout].
    assert (path = "") as ->.
    { destruct path; [reflexivity|discriminate]. }
    split; [by exists t0|]. split; [|split; [|split; [|split]]].
    + split; [done|]. rewrite Htr. intros [Hl|Hl]%in_app_or.
      * by apply Hnot in Hl.
      * cbn in Hl. destruct Hl as [Hl|[Hl|[]]]; discriminate.
    + intros m' path'. rewrite Htr. intros [Hl|Hl]%in_app_or.
      * by apply Hnot in Hl.
      * cbn in Hl. destruct Hl as [Hl|[Hl|[]]]; discriminate.
    + intros r. rewrite Hout. congruence.
    + done.
    + by left.
Qed.

(** the positional-derived arguments reach the constructor as given *)
Lemma constructor_positional
    c name p n i path s e j kwargs nm a :
  In (EvConstruct nm a) (trace (create_model c name p n i path s e j kwargs)) ->
  a !! "pretrained" = Some p
  /\ a !! "num_classes" = Some n
  /\ a !! "in_chans" = Some i.
Proof.
  intros (-> & _ & kw1 & kw2 & kw3 & _ & _ & _ & Hdisj & ->)%construct_stages.
  destruct (model_args_lookup p n i) as (Hp & Hn & Hi).
  split; [by apply lookup_union_Some_l|].
  split; by apply lookup_union_Some_l.
Qed.


(** C8 (amended): outside the efficientnet and mobilenetv3 modules the
    constructor receives none of [bn_tf], [bn_momentum], [bn_eps];
    inside them [get_act_layer] is not called, and each of these three
    keywords and [act_layer] reaches the constructor with the value it
    has in [kwargs] when that value is not [None], and does not reach
    it when it is [None] or absent. *)
Theorem create_model_bn_keywords
    c name p n i path s e j kwargs nm a :
  let run := create_model c name p n i path s e j kwargs in
  In (EvConstruct nm a) (trace run) ->
  (is_model_in_modules c name ["efficientnet"; "mobilenetv3"] = false ->
     a !! "bn_tf" = None /\ a !! "bn_momentum" = None /\ a !! "bn_eps" = None)
  /\ (is_model_in_modules c name ["efficientnet"; "mobilenetv3"] = true ->
     (forall v, ~ In (EvGetActLayer v) (trace run))
     /\ forall k, In k ["bn_tf"; "bn_momentum"; "bn_eps"; "act_layer"] ->
          (forall v, kwargs !! k = Some v -> v <> VNone -> a !! k = Some v)
          /\ (kwargs !! k = Some VNone -> a !! k = None)
          /\ (kwargs !! k = None -> a !! k = None)).
Proof.
  intros run Hin. split; intros Heff.
  - apply construct_stages in Hin
      as (-> & _ & kw1 & kw2 & kw3 & H1 & H2 & H3 & _ & ->).
    destruct (act_stage_resolved c name _ kwargs kw1 Heff H1)
      as (layer & _ & _ & Htf & Hmo & Heps).
    apply norm_stage_inv in H2 as (norm & _ & ->).
    rewrite !constructor_lookup by done.
    rewrite (drop_stage_frame _ _ _ "bn_tf" H3) by done.
    rewrite (drop_stage_frame _ _ _ "bn_momentum" H3) by done.
    rewrite (drop_stage_frame _ _ _ "bn_eps" H3) by done.
    rewrite !lookup_insert_ne by done.
    by rewrite Htf, Hmo, Heps.
  - split.
    + intros v [Hv _]%act_layer_event. congruence.
    + apply construct_stages in Hin
        as (-> & _ & kw1 & kw2 & kw3 & H1 & H2 & H3 & _ & ->).
      rewrite (act_stage_skipped c name _ kwargs Heff) in H1.
      injection H1 as <-.
      apply norm_stage_inv in H2 as (norm & _ & ->).
      assert (forall k, In k ["bn_tf"; "bn_momentum"; "bn_eps"; "act_layer"] ->
                (model_args_of p n i ∪ drop_none kw3) !! k
                = match kwargs !! k with
                  | Some v => if is_none v then None else Some v
                  | None => None
                  end) as Hlook.
      { intros k Hk. cbn in Hk.
        destruct Hk as [<-|[<-|[<-|[<-|[]]]]];
          rewrite constructor_lookup by done;
          rewrite (drop_stage_frame _ _ _ _ H3) by done;
          by rewrite lookup_insert_ne. }
      intros k Hk. rewrite (Hlook k Hk). split; [|split].
      * intros v -> Hv. by destruct v.
      * by intros ->.
      * by intros ->.
Qed.

(** C6: [build_backbone] calls [create_model] with [scriptable = True],
    [no_jit = True] when [cfg.MODEL.OPT] is ['infer'], with
    [scriptable = True], [no_jit = False] when it is ['jit'], and with
    both [False] otherwise; [exportable] is [False] in every case, and
    every [set_layer_config] of the run is entered with these flags. *)
Theorem build_backbone_flags c (cfg : cfg_node) :
  let call scriptable exportable no_jit :=
    create_model c (BACKBONE (MODEL cfg)) (VBool true) (CLASSES (MODEL cfg))
      (INPUT_CHANNEL (TRAIN cfg)) (BACKBONE_WEIGHTS (MODEL cfg))
      (VBool scriptable) (VBool exportable) (VBool no_jit) (backbone_kwargs cfg) in
  (OPT (MODEL cfg) = VStr "infer" -> build_backbone c cfg = call true false true)
  /\ (OPT (MODEL cfg) = VStr "jit" -> build_backbone c cfg = call true false false)
  /\ (OPT (MODEL cfg) <> VStr "infer" -> OPT (MODEL cfg) <> VStr "jit" ->
      build_backbone c cfg = call false false false)
  /\ (forall lc, In (EvEnterLayerConfig lc) (trace (build_backbone c cfg)) ->
      lc_exportable lc = VBool false).
Proof.
  intros call. unfold build_backbone. split; [|split; [|split]].
  - intros ->. reflexivity.
  - intros ->. reflexivity.
  - intros Hi Hj.
    assert (py_eq_str (OPT (MODEL cfg)) "infer" = false) as ->.
    { destruct (OPT (MODEL cfg)) as [| | | |o|]; try reflexivity.
      cbn. apply String.eqb_neq. congruence. }
    assert (py_eq_str (OPT (MODEL cfg)) "jit" = false) as ->.
    { destruct (OPT (MODEL cfg)) as [| | | |o|]; try reflexivity.
      cbn. apply String.eqb_neq. congruence. }
    reflexivity.
  - intros lc.
    destruct (py_eq_str (OPT (MODEL cfg)) "infer");
      [|destruct (py_eq_str (OPT (MODEL cfg)) "jit")];
      intros ->%layer_config_events; reflexivity.
Qed.

(** C9: whatever [cfg] holds, [build_backbone] passes [pretrained = True]
    to [create_model], and a constructor it reaches receives
    [pretrained = True]. *)
Theorem build_backbone_pretrained c (cfg : cfg_node) :
  (exists scriptable exportable no_jit : bool,
     build_backbone c cfg =
     create_model c (BACKBONE (MODEL cfg)) (VBool true) (CLASSES (MODEL cfg))
       (INPUT_CHANNEL (TRAIN cfg)) (BACKBONE_WEIGHTS (MODEL cfg))
       (VBool scriptable) (VBool exportable) (VBool no_jit) (backbone_kwargs cfg))
  /\ (forall nm a, In (EvConstruct nm a) (trace (build_backbone c cfg)) ->
      a !! "pretrained" = Some (VBool true)).
Proof.
  assert (exists scriptable exportable no_jit : bool,
     build_backbone c cfg =
     create_model c (BACKBONE (MODEL cfg)) (VBool true) (CLASSES (MODEL cfg))
       (INPUT_CHANNEL (TRAIN cfg)) (BACKBONE_WEIGHTS (MODEL cfg))
       (VBool scriptable) (VBool exportable) (VBool no_jit) (backbone_kwargs cfg))
    as Hcall.
  { unfold build_backbone.
    destruct (py_eq_str (OPT (MODEL cfg)) "infer");
      [|destruct (py_eq_str (OPT (MODEL cfg)) "jit")]; eauto. }
  split; [exact Hcall|].
  destruct Hcall as (sc & ex & nj & ->).
  intros nm a Hin. by apply constructor_positional in Hin as (Hp & _).
Qed.

(** a call that reaches the constructor *)
Lemma construct_intro c name p n i path s e j kwargs kw :
  is_model c name = true ->
  normalized_kwargs c name (LayerConfig s e j) kwargs = inr kw ->
  bool_decide (model_args_of p n i ##ₘ kw) = true ->
  In (EvConstruct name (model_args_of p n i ∪ kw))
     (trace (create_model c name p n i path s e j kwargs)).
Proof.
  intros Hreg Hkw Hdisj. apply construct_iff.
  split; [reflexivity|]. split; [exact Hreg|].
  exists kw. split; [exact Hkw|]. split; [|reflexivity].
  by apply bool_decide_eq_true in Hdisj.
Qed.

(** * More about runs *)

(** splitting a concrete trace before its last [with] block *)
Ltac split_final l k :=
  lazymatch l with
  | EvEnterLayerConfig ?lc :: ?r =>
      lazymatch r with
      | context [EvEnterLayerConfig] =>
          split_final r ltac:(fun pre post => k (@cons (@event model) (EvEnterLayerConfig lc) pre) post)
      | _ => k (@nil (@event model)) l
      end
  | ?x :: ?r => split_final r ltac:(fun pre post => k (@cons (@event model) x pre) post)
  end.

(** every run, case by case: the events of the normalisation, then the
    second [with] block and the checkpoint load *)
Lemma run_cases c name p n i path s e j kwargs :
  let lc := LayerConfig s e j in
  let run := create_model c name p n i path s e j kwargs in
  exists pre, Forall prep_event pre /\
    match normalized_kwargs c name lc kwargs with
    | inl err => trace run = pre /\ outcome run = inl err
    | inr kw =>
        if is_model c name then
          if decide (model_args_of p n i ##ₘ kw) then
            let args := model_args_of p n i ∪ kw in
            match model_entrypoint c name lc args with
            | inl err =>
                trace run = pre ++ [EvEnterLayerConfig lc; EvEntrypoint name;
                                    EvConstruct name args; EvExitLayerConfig lc]
                /\ outcome run = inl (Propagated err)
            | inr m =>
                if str_truthy path then
                  trace run = pre ++ [EvEnterLayerConfig lc; EvEntrypoint name;
                                      EvConstruct name args; EvExitLayerConfig lc;
                                      EvLoadCheckpoint m path]
                  /\ outcome run =
                     match load_checkpoint c m path with
                     | inl err => inl (Propagated err)
                     | inr _ => inr m
                     end
                else
                  trace run = pre ++ [EvEnterLayerConfig lc; EvEntrypoint name;
                                      EvConstruct name args; EvExitLayerConfig lc]
                  /\ outcome run = inr m
            end
          else
            trace run = pre ++ [EvEnterLayerConfig lc; EvEntrypoint name;
                                EvExitLayerConfig lc]
            /\ outcome run = inl TypeError
        else
          trace run = pre ++ [EvEnterLayerConfig lc; EvExitLayerConfig lc]
          /\ outcome run = inl (RuntimeError ("Unknown model (" +:+ name +:+ ")"))
    end.
Proof.
  intros lc run; subst lc run.
  cm_run.
  all: lazymatch goal with
       | |- exists pre, _ /\ (?l = pre /\ _) => exists l
       | |- exists pre, _ /\ (?l = _ ++ _ /\ _) =>
           split_final l ltac:(fun pre post => exists pre)
       end.
  all: (split; [ repeat constructor | split; reflexivity ]).
Qed.

(** the whole trace respects the [with] blocks, and the collaborators
    are called in the order of the text, each at most once *)
Lemma run_shape c name p n i path s e j kwargs :
  let run := create_model c name p n i path s e j kwargs in
  scoped false (trace run) = true
  /\ increasing (omap call_rank (trace run)) = true.
Proof.
  intros run; subst run.
  cm_run.
  all: split; reflexivity.
Qed.

Ltac use_eqs :=
  repeat match goal with
         | H : ?x = _ |- context [?x] => rewrite H
         end.

(** where the [get_norm] call and the two messages come from *)
Lemma prep_events c name p n i path s e j kwargs ev :
  In ev (trace (create_model c name p n i path s e j kwargs)) ->
  match ev with
  | EvGetNorm v =>
      exists kw1,
        act_stage c name (LayerConfig s e j) kwargs = inr kw1
        /\ v = resolved_norm (get_world_size c) (dict_get "norm_layer" (VStr "BN") kw1)
  | EvPrint fmt v =>
      (fmt = conversion_message
       /\ exists kw1,
            act_stage c name (LayerConfig s e j) kwargs = inr kw1
            /\ v = dict_get "norm_layer" (VStr "BN") kw1
            /\ (1 <? get_world_size c)%Z
               && negb (py_in_strs v ["SyncBN"; "nnSyncBN"; "naiveSyncBN"]) = true)
      \/ (fmt = deprecation_message
          /\ exists kw1 kw2,
               act_stage c name (LayerConfig s e j) kwargs = inr kw1
               /\ norm_stage c kw1 = inr kw2
               /\ v = dict_get "drop_connect_rate" VNone kw2
               /\ is_none v = false
               /\ is_none (dict_get "drop_path_rate" VNone
                             (delete "drop_connect_rate" kw2)) = true
               /\ percent_f c v = Converts)
  | _ => True
  end.
Proof.
  cm_run.
  all: intros H; in_cases H; subst ev; try exact I.
  all: try (eexists; split; [reflexivity|]; use_eqs; reflexivity).
  all: try (left; split; [reflexivity|]; eexists; split; [reflexivity|];
            split; [reflexivity|]; assumption).
  all: right; split; [reflexivity|]; eexists; eexists; split; [reflexivity|];
       split; [use_eqs; reflexivity|]; split; [reflexivity|];
       match goal with
       | H : negb (is_none _) && _ = true |- _ =>
           apply andb_true_iff in H as [H1 H2]; apply negb_true_iff in H1
       end; repeat split; assumption.
Qed.

(** * More about the normalised keywords *)

Lemma sync_cond_iff gpus requested :
  (1 <? gpus)%Z && negb (py_in_strs requested ["SyncBN"; "nnSyncBN"; "naiveSyncBN"]) = true
  <-> sync_needed gpus requested.
Proof.
  unfold sync_needed. rewrite andb_true_iff, negb_true_iff, Z.ltb_lt.
  split; intros [Hg Hn]; (split; [exact Hg|]).
  - intros Hin.
    apply (py_in_strs_In requested ["SyncBN"; "nnSyncBN"; "naiveSyncBN"]) in Hin.
    congruence.
  - destruct (py_in_strs requested _) eqn:Hin; [|reflexivity].
    apply py_in_strs_In in Hin. contradiction.
Qed.

Lemma act_stage_ok c name lc kwargs :
  is_model_in_modules c name ["efficientnet"; "mobilenetv3"] = true
  \/ (exists layer,
        get_act_layer c lc (dict_get "act_layer" (VStr "relu") kwargs) = inr layer) ->
  exists kw1, act_stage c name lc kwargs = inr kw1.
Proof.
  unfold act_stage, dict_get. rewrite !lookup_delete_ne by done.
  intros [-> | [layer ->]]; cbn [negb]; [eauto|].
  destruct (negb _); eauto.
Qed.

Lemma act_stage_failure c name lc kwargs err :
  is_model_in_modules c name ["efficientnet"; "mobilenetv3"] = false ->
  get_act_layer c lc (dict_get "act_layer" (VStr "relu") kwargs) = inl err ->
  act_stage c name lc kwargs = inl (Propagated err).
Proof.
  unfold act_stage, dict_get. rewrite !lookup_delete_ne by done.
  intros -> ->. reflexivity.
Qed.

Lemma norm_stage_failure c kw1 err :
  get_norm c (resolved_norm (get_world_size c)
                (dict_get "norm_layer" (VStr "BN") kw1)) = inl err ->
  norm_stage c kw1 = inl (Propagated err).
Proof. unfold norm_stage. intros ->. reflexivity. Qed.

Lemma act_stage_requested_norm c name lc kwargs kw1 :
  act_stage c name lc kwargs = inr kw1 ->
  dict_get "norm_layer" (VStr "BN") kw1 = dict_get "norm_layer" (VStr "BN") kwargs.
Proof.
  intros H. unfold dict_get.
  by rewrite (act_stage_frame _ _ _ _ _ "norm_layer" H).
Qed.

(** the first two stages fail only with an exception of a collaborator *)
Lemma act_stage_error c name lc kwargs err :
  act_stage c name lc kwargs = inl err -> exists e, err = Propagated e.
Proof.
  unfold act_stage. intros H.
  destruct (negb _); [|discriminate].
  destruct (get_act_layer _ _ _); [|discriminate].
  injection H as <-. eauto.
Qed.

Lemma norm_stage_error c kw1 err :
  norm_stage c kw1 = inl err -> exists e, err = Propagated e.
Proof.
  unfold norm_stage. intros H.
  destruct (get_norm _ _); [|discriminate].
  injection H as <-. eauto.
Qed.

(** a key present after a stage was present before it or is the key
    the stage writes *)
Lemma act_stage_dom c name lc kwargs kw1 (k : string) :
  act_stage c name lc kwargs = inr kw1 ->
  is_Some (kw1 !! k) -> k = "act_layer" \/ is_Some (kwargs !! k).
Proof.
  unfold act_stage. intros H Hk.
  destruct (negb _); [|injection H as <-; by right].
  destruct (get_act_layer _ _ _); [discriminate|]. injection H as <-.
  destruct (decide (k = "act_layer")) as [->|Hne]; [by left|right].
  rewrite lookup_insert_ne in Hk by done.
  destruct Hk as [x Hk].
  repeat (apply lookup_delete_Some in Hk as [_ Hk]). eauto.
Qed.

Lemma drop_stage_dom c kw2 kw3 (k : string) :
  drop_stage c kw2 = inr kw3 ->
  is_Some (kw3 !! k) -> k = "drop_path_rate" \/ is_Some (kw2 !! k).
Proof.
  unfold drop_stage. intros H Hk.
  destruct (_ && _).
  - destruct (percent_f _ _); try discriminate. injection H as <-.
    destruct (decide (k = "drop_path_rate")) as [->|Hne]; [by left|right].
    rewrite lookup_insert_ne in Hk by done.
    destruct Hk as [x Hk]. apply lookup_delete_Some in Hk as [_ Hk]. eauto.
  - injection H as <-. right.
    destruct Hk as [x Hk]. apply lookup_delete_Some in Hk as [_ Hk]. eauto.
Qed.

Lemma not_handled (k : string) :
  ~ In k handled_keywords ->
  k <> "act_layer" /\ k <> "bn_tf" /\ k <> "bn_momentum" /\ k <> "bn_eps"
  /\ k <> "norm_layer" /\ k <> "drop_connect_rate" /\ k <> "drop_path_rate".
Proof.
  intros Hk. repeat split; intros ->; apply Hk; cbn; auto 10.
Qed.

(** what the constructor receives under a key that lines 38-63 leave
    alone *)
Lemma construct_frame c name p n i path s e j kwargs nm a (k : string) :
  In (EvConstruct nm a) (trace (create_model c name p n i path s e j kwargs)) ->
  ~ In k handled_keywords ->
  k <> "pretrained" -> k <> "num_classes" -> k <> "in_chans" ->
  a !! k =
  match kwargs !! k with
  | Some v => if is_none v then None else Some v
  | None => None
  end.
Proof.
  intros (-> & _ & kw1 & kw2 & kw3 & H1 & H2 & H3 & _ & ->)%construct_stages
    (? & ? & ? & ? & ? & ? & ?)%not_handled ? ? ?.
  apply norm_stage_inv in H2 as (norm & _ & ->).
  rewrite constructor_lookup by done.
  rewrite (drop_stage_frame _ _ _ k H3) by done.
  rewrite lookup_insert_ne by done.
  rewrite (act_stage_frame _ _ _ _ _ k H1) by done.
  reflexivity.
Qed.

(** the constructor receives no keyword that was not given, apart from
    the six that [create_model] sets *)
Lemma construct_domain c name p n i path s e j kwargs nm a (k : string) :
  In (EvConstruct nm a) (trace (create_model c name p n i path s e j kwargs)) ->
  is_Some (a !! k) ->
  is_Some (kwargs !! k)
  \/ In k ["pretrained"; "num_classes"; "in_chans";
           "act_layer"; "norm_layer"; "drop_path_rate"].
Proof.
  intros (-> & _ & kw1 & kw2 & kw3 & H1 & H2 & H3 & _ & ->)%construct_stages Hk.
  apply norm_stage_inv in H2 as (norm & _ & ->).
  destruct (decide (k = "pretrained")) as [->|?]; [right; cbn; tauto|].
  destruct (decide (k = "num_classes")) as [->|?]; [right; cbn; tauto|].
  destruct (decide (k = "in_chans")) as [->|?]; [right; cbn; tauto|].
  rewrite constructor_lookup in Hk by done.
  assert (is_Some (kw3 !! k)) as Hk3.
  { destruct (kw3 !! k) as [v|]; [eauto|]. by destruct Hk. }
  apply (drop_stage_dom _ _ _ _ H3) in Hk3 as [->|Hk2]; [right; cbn; tauto|].
  destruct (decide (k = "norm_layer")) as [->|?]; [right; cbn; tauto|].
  rewrite lookup_insert_ne in Hk2 by done.
  apply (act_stage_dom _ _ _ _ _ _ H1) in Hk2 as [->|Hk0]; [right; cbn; tauto|].
  by left.
Qed.

(** without a [drop_connect_rate] lines 59-63 change nothing *)
Lemma construct_without_drop_connect
    c name p n i path s e j kwargs nm a :
  kwargs !! "drop_connect_rate" = None
  \/ kwargs !! "drop_connect_rate" = Some VNone ->
  In (EvConstruct nm a) (trace (create_model c name p n i path s e j kwargs)) ->
  a !! "drop_connect_rate" = None
  /\ a !! "drop_path_rate" =
     match kwargs !! "drop_path_rate" with
     | Some v => if is_none v then None else Some v
     | None => None
     end.
Proof.
  intros Hdcr (-> & _ & kw1 & kw2 & kw3 & H1 & H2 & H3 & _ & ->)%construct_stages.
  apply norm_stage_inv in H2 as (norm & _ & ->).
  rewrite !constructor_lookup by done.
  rewrite (drop_stage_connect _ _ _ H3), (drop_stage_path _ _ _ H3).
  unfold dict_get. rewrite !lookup_insert_ne by done.
  rewrite (act_stage_frame _ _ _ _ _ "drop_connect_rate" H1) by done.
  rewrite (act_stage_frame _ _ _ _ _ "drop_path_rate" H1) by done.
  split; [reflexivity|].
  destruct Hdcr as [-> | ->]; reflexivity.
Qed.

(** consequences of [run_cases] *)

Lemma prep_no_lookup (pre : list (@event model)) :
  Forall prep_event pre ->
  (forall nm, ~ In (EvEntrypoint nm) pre)
  /\ (forall nm a, ~ In (EvConstruct nm a) pre)
  /\ (forall m path, ~ In (EvLoadCheckpoint m path) pre).
Proof.
  rewrite Forall_forall. intros Hpre.
  split; [|split]; intros; intros Hin%list_elem_of_In; exact (Hpre _ Hin).
Qed.

Lemma normalization_failure c name p n i path s e j kwargs err :
  let run := create_model c name p n i path s e j kwargs in
  normalized_kwargs c name (LayerConfig s e j) kwargs = inl err ->
  outcome run = inl err
  /\ (forall nm, ~ In (EvEntrypoint nm) (trace run))
  /\ (forall nm a, ~ In (EvConstruct nm a) (trace run))
  /\ (forall m path', ~ In (EvLoadCheckpoint m path') (trace run)).
Proof.
  intros run Hn.
  destruct (run_cases c name p n i path s e j kwargs) as (pre & Hpre & Hrun).
  rewrite Hn in Hrun. destruct Hrun as [Htr Hout]. fold run in Htr, Hout.
  rewrite Htr. split; [exact Hout|]. by apply prep_no_lookup.
Qed.

Lemma load_event c name p n i path s e j kwargs m path' :
  let lc := LayerConfig s e j in
  let run := create_model c name p n i path s e j kwargs in
  In (EvLoadCheckpoint m path') (trace run) ->
  path' = path /\ path <> "" /\ is_model c name = true
  /\ exists a, In (EvConstruct name a) (trace run)
               /\ model_entrypoint c name lc a = inr m.
Proof.
  intros lc run.
  destruct (run_cases c name p n i path s e j kwargs) as (pre & Hpre & Hrun).
  fold lc run in Hrun.
  destruct (prep_no_lookup pre Hpre) as (_ & _ & Hnl).
  destruct (normalized_kwargs c name lc kwargs) as [err|kw].
  { destruct Hrun as [-> _]. intros Hin. by apply Hnl in Hin. }
  destruct (is_model c name) eqn:Hreg.
  2:{ destruct Hrun as [-> _]. intros [Hin|Hin]%in_app_or; [by apply Hnl in Hin|].
      cbn in Hin. by destruct Hin as [Hin|[Hin|[]]]. }
  destruct (decide _) as [Hdisj|Hdisj].
  2:{ destruct Hrun as [-> _]. intros [Hin|Hin]%in_app_or; [by apply Hnl in Hin|].
      cbn in Hin. by destruct Hin as [Hin|[Hin|[Hin|[]]]]. }
  cbv zeta in Hrun.
  destruct (model_entrypoint c name lc _) as [err|m0] eqn:Hm.
  { destruct Hrun as [-> _]. intros [Hin|Hin]%in_app_or; [by apply Hnl in Hin|].
    cbn in Hin. by destruct Hin as [Hin|[Hin|[Hin|[Hin|[]]]]]. }
  destruct (str_truthy path) eqn:Hpath.
  2:{ destruct Hrun as [-> _]. intros [Hin|Hin]%in_app_or; [by apply Hnl in Hin|].
      cbn in Hin. by destruct Hin as [Hin|[Hin|[Hin|[Hin|[]]]]]. }
  destruct Hrun as [-> _]. intros [Hin|Hin]%in_app_or; [by apply Hnl in Hin|].
  cbn in Hin. destruct Hin as [Hin|[Hin|[Hin|[Hin|[Hin|[]]]]]]; try discriminate.
  injection Hin as <- <-.
  split; [reflexivity|]. split; [by apply str_truthy_nonempty|].
  split; [reflexivity|]. eexists. split; [|exact Hm].
  apply in_or_app. right. cbn. tauto.
Qed.

Lemma build_backbone_call c (cfg : cfg_node) :
  exists scriptable no_jit : bool,
    build_backbone c cfg =
    create_model c (BACKBONE (MODEL cfg)) (VBool true) (CLASSES (MODEL cfg))
      (INPUT_CHANNEL (TRAIN cfg)) (BACKBONE_WEIGHTS (MODEL cfg))
      (VBool scriptable) (VBool false) (VBool no_jit) (backbone_kwargs cfg).
Proof.
  unfold build_backbone.
  destruct (py_eq_str (OPT (MODEL cfg)) "infer");
    [|destruct (py_eq_str (OPT (MODEL cfg)) "jit")]; eauto.
Qed.

(** * Further properties of [create_model] and [build_backbone] *)

(** X1: every run respects the two [with set_layer_config] blocks: a
    block that is entered is left, also when the run raises; the blocks
    are not nested; [get_act_layer], the registry lookup and the
    constructor are called inside a block, [get_norm], [load_checkpoint]
    and the two messages outside. *)
Theorem create_model_layer_config_scoped c name p n i path s e j kwargs :
  scoped false (trace (create_model c name p n i path s e j kwargs)) = true.
Proof. apply run_shape. Qed.

(** X2: in every run the collaborators are called in the order of the
    text, [get_act_layer], [get_norm], [model_entrypoint], the
    constructor, [load_checkpoint], and each of them at most once. *)
Theorem create_model_call_order c name p n i path s e j kwargs :
  increasing (omap call_rank (trace (create_model c name p n i path s e j kwargs)))
  = true.
Proof. apply run_shape. Qed.

(** X3: a model that [create_model] returns was built by the constructor
    of the registered name on the normalised keywords, and when
    [checkpoint_path] is not empty [load_checkpoint] has succeeded on
    it. *)
Theorem create_model_returns_constructed c name p n i path s e j kwargs m :
  let lc := LayerConfig s e j in
  let run := create_model c name p n i path s e j kwargs in
  outcome run = inr m ->
  is_model c name = true
  /\ exists kw,
       normalized_kwargs c name lc kwargs = inr kw
       /\ In (EvConstruct name (model_args_of p n i ∪ kw)) (trace run)
       /\ model_entrypoint c name lc (model_args_of p n i ∪ kw) = inr m
       /\ (path <> "" -> load_checkpoint c m path = inr tt).
Proof.
  intros lc run Hout.
  destruct (run_cases c name p n i path s e j kwargs) as (pre & _ & Hrun).
  fold lc run in Hrun.
  destruct (normalized_kwargs c name lc kwargs) as [err|kw];
    [destruct Hrun; congruence|].
  destruct (is_model c name); [|destruct Hrun; congruence].
  destruct (decide _); [|destruct Hrun; congruence].
  cbv zeta in Hrun.
  destruct (model_entrypoint c name lc _) as [err|built] eqn:Hm;
    [destruct Hrun; congruence|].
  split; [reflexivity|]. exists kw. split; [reflexivity|].
  destruct (str_truthy path) eqn:Hpath; destruct Hrun as [Htr Hout'].
  - rewrite Hout' in Hout.
    destruct (load_checkpoint c built path) as [err|[]] eqn:Hload; [discriminate|].
    injection Hout as <-.
    split; [rewrite Htr; apply in_or_app; right; cbn; tauto|].
    split; [exact Hm|]. intros _. exact Hload.
  - rewrite Hout' in Hout. injection Hout as <-.
    split; [rewrite Htr; apply in_or_app; right; cbn; tauto|].
    split; [exact Hm|]. intros Hne. apply str_truthy_nonempty in Hne. congruence.
Qed.

(** X4: when the constructor raises, [create_model] raises the same
    exception and [load_checkpoint] is not called, whatever
    [checkpoint_path] is. *)
Theorem create_model_constructor_raises
    c name p n i path s e j kwargs nm a err :
  let lc := LayerConfig s e j in
  let run := create_model c name p n i path s e j kwargs in
  In (EvConstruct nm a) (trace run) ->
  model_entrypoint c name lc a = inl err ->
  outcome run = inl (Propagated err)
  /\ forall m path', ~ In (EvLoadCheckpoint m path') (trace run).
Proof.
  intros lc run Hin Herr.
  split.
  - apply construct_iff in Hin as (-> & Hreg & kw & Hkw & Hdisj & ->).
    pose proof (registered_run c name p n i path s e j kwargs Hreg) as Hrun.
    cbv zeta in Hrun. fold lc run in Hrun, Hkw, Herr.
    rewrite Hkw in Hrun. specialize (Hrun Hdisj) as (t0 & _ & Hrun).
    rewrite Herr in Hrun. apply Hrun.
  - intros m path' (_ & _ & _ & a' & Hin' & Hm)%load_event.
    apply construct_iff in Hin as (_ & _ & kw & Hkw & _ & ->).
    apply construct_iff in Hin' as (_ & _ & kw' & Hkw' & _ & ->).
    fold lc in Hm. congruence.
Qed.

(** X5: once the constructor has returned [m] and [checkpoint_path] is
    not empty, the outcome is that of [load_checkpoint]: [m] is
    returned when the load succeeds, and an exception of the load is
    raised by [create_model], the model being lost. *)
Theorem create_model_load_decides
    c name p n i path s e j kwargs nm a m :
  let lc := LayerConfig s e j in
  let run := create_model c name p n i path s e j kwargs in
  In (EvConstruct nm a) (trace run) ->
  model_entrypoint c name lc a = inr m ->
  path <> "" ->
  outcome run =
  match load_checkpoint c m path with
  | inl err => inl (Propagated err)
  | inr _ => inr m
  end.
Proof.
  intros lc run (-> & Hreg & kw & Hkw & Hdisj & ->)%construct_iff Hm Hpath.
  pose proof (registered_run c name p n i path s e j kwargs Hreg) as Hrun.
  cbv zeta in Hrun. fold lc run in Hrun, Hkw, Hm.
  rewrite Hkw in Hrun. specialize (Hrun Hdisj) as (t0 & _ & Hrun).
  rewrite Hm in Hrun. apply str_truthy_nonempty in Hpath. rewrite Hpath in Hrun.
  apply Hrun.
Qed.

(** X6: [get_norm] runs before the registry lookup: when the activation
    stage goes through and [get_norm] raises, [create_model] raises that
    exception and neither looks the name up nor calls a constructor,
    whether or not the name is registered. *)
Theorem create_model_norm_error_first c name p n i path s e j kwargs err :
  let lc := LayerConfig s e j in
  let run := create_model c name p n i path s e j kwargs in
  is_model_in_modules c name ["efficientnet"; "mobilenetv3"] = true
  \/ (exists layer,
        get_act_layer c lc (dict_get "act_layer" (VStr "relu") kwargs) = inr layer) ->
  get_norm c (resolved_norm (get_world_size c)
                (dict_get "norm_layer" (VStr "BN") kwargs)) = inl err ->
  outcome run = inl (Propagated err)
  /\ (forall nm, ~ In (EvEntrypoint nm) (trace run))
  /\ (forall nm a, ~ In (EvConstruct nm a) (trace run)).
Proof.
  intros lc run [kw1 H1]%act_stage_ok Hnorm.
  rewrite <- (act_stage_requested_norm _ _ _ _ _ H1) in Hnorm.
  apply norm_stage_failure in Hnorm.
  destruct (normalization_failure c name p n i path s e j kwargs (Propagated err))
    as (Hout & Hne & Hnc & _).
  { unfold normalized_kwargs. fold lc. by rewrite H1, Hnorm. }
  auto.
Qed.

(** X7: outside the efficientnet and mobilenetv3 modules, when
    [get_act_layer] raises, [create_model] raises that exception without
    calling [get_norm], the registry or a constructor. *)
Theorem create_model_act_error_first c name p n i path s e j kwargs err :
  let lc := LayerConfig s e j in
  let run := create_model c name p n i path s e j kwargs in
  is_model_in_modules c name ["efficientnet"; "mobilenetv3"] = false ->
  get_act_layer c lc (dict_get "act_layer" (VStr "relu") kwargs) = inl err ->
  outcome run = inl (Propagated err)
  /\ (forall v, ~ In (EvGetNorm v) (trace run))
  /\ (forall nm, ~ In (EvEntrypoint nm) (trace run))
  /\ (forall nm a, ~ In (EvConstruct nm a) (trace run)).
Proof.
  intros lc run Heff Hact.
  pose proof (act_stage_failure c name lc kwargs err Heff Hact) as H1.
  destruct (normalization_failure c name p n i path s e j kwargs (Propagated err))
    as (Hout & Hne & Hnc & _).
  { unfold normalized_kwargs. fold lc. by rewrite H1. }
  split; [exact Hout|]. split; [|auto].
  intros v (kw1 & Hkw1 & _)%prep_events. fold lc in Hkw1. congruence.
Qed.

(** X8: a [drop_connect_rate] given as a string, with [drop_path_rate]
    absent or [None], makes every call fail: the run ends in the
    [TypeError] of the [%f] conversion, or earlier in an exception of a
    collaborator, and never reaches the registry or a constructor. *)
Theorem create_model_drop_connect_string
    c name p n i path s e j kwargs (rate : string) :
  let run := create_model c name p n i path s e j kwargs in
  kwargs !! "drop_connect_rate" = Some (VStr rate) ->
  kwargs !! "drop_path_rate" = None \/ kwargs !! "drop_path_rate" = Some VNone ->
  (outcome run = inl TypeError \/ exists err, outcome run = inl (Propagated err))
  /\ (forall nm, ~ In (EvEntrypoint nm) (trace run))
  /\ (forall nm a, ~ In (EvConstruct nm a) (trace run)).
Proof.
  intros run Hdcr Hdpr.
  assert (exists err,
            normalized_kwargs c name (LayerConfig s e j) kwargs = inl err
            /\ (err = TypeError \/ exists e', err = Propagated e'))
    as (err & Herr & Hkind).
  { unfold normalized_kwargs.
    destruct (act_stage _ _ _ _) as [e1|kw1] eqn:H1.
    { apply act_stage_error in H1. eauto. }
    destruct (norm_stage c kw1) as [e2|kw2] eqn:H2.
    { apply norm_stage_error in H2. eauto. }
    apply norm_stage_inv in H2 as (norm & _ & ->).
    unfold drop_stage, dict_get.
    rewrite lookup_delete_ne, !lookup_insert_ne by done.
    rewrite (act_stage_frame _ _ _ _ _ "drop_connect_rate" H1) by done.
    rewrite (act_stage_frame _ _ _ _ _ "drop_path_rate" H1) by done.
    rewrite Hdcr. destruct Hdpr as [-> | ->]; cbn; eauto. }
  destruct (normalization_failure c name p n i path s e j kwargs err Herr)
    as (Hout & Hne & Hnc & _).
  split; [|auto]. fold run in Hout. rewrite Hout.
  destruct Hkind as [-> | [e' ->]]; eauto.
Qed.

(** X9: a keyword that lines 38-63 do not handle reaches the constructor
    with the value it was given, unless that value is [None], in which
    case it is not passed. *)
Theorem create_model_other_keywords
    c name p n i path s e j kwargs nm a (k : string) :
  In (EvConstruct nm a) (trace (create_model c name p n i path s e j kwargs)) ->
  ~ In k handled_keywords ->
  k <> "pretrained" -> k <> "num_classes" -> k <> "in_chans" ->
  a !! k =
  match kwargs !! k with
  | Some v => if is_none v then None else Some v
  | None => None
  end.
Proof. apply construct_frame. Qed.

(** X10: the constructor receives no keyword that the caller did not
    give, apart from [pretrained], [num_classes], [in_chans],
    [act_layer], [norm_layer] and [drop_path_rate]. *)
Theorem create_model_keyword_domain
    c name p n i path s e j kwargs nm a (k : string) :
  In (EvConstruct nm a) (trace (create_model c name p n i path s e j kwargs)) ->
  is_Some (a !! k) ->
  is_Some (kwargs !! k)
  \/ In k ["pretrained"; "num_classes"; "in_chans";
           "act_layer"; "norm_layer"; "drop_path_rate"].
Proof. apply construct_domain. Qed.

(** X11: [load_checkpoint] is only ever called with [checkpoint_path],
    which is then not empty, and on the model that the constructor of
    the registered name returned in this run. *)
Theorem create_model_loads_only_constructed
    c name p n i path s e j kwargs m path' :
  let lc := LayerConfig s e j in
  let run := create_model c name p n i path s e j kwargs in
  In (EvLoadCheckpoint m path') (trace run) ->
  path' = path /\ path <> "" /\ is_model c name = true
  /\ exists a, In (EvConstruct name a) (trace run)
               /\ model_entrypoint c name lc a = inr m.
Proof. apply load_event. Qed.

(** X12: the message about the conversion to SyncBN is printed only
    when the conversion takes place, and then with the name that was
    requested. *)
Theorem create_model_conversion_message c name p n i path s e j kwargs v :
  let requested := dict_get "norm_layer" (VStr "BN") kwargs in
  In (EvPrint conversion_message v)
     (trace (create_model c name p n i path s e j kwargs)) ->
  v = requested /\ sync_needed (get_world_size c) requested.
Proof.
  intros requested Hin. apply prep_events in Hin as [(_ & kw1 & H1 & -> & Hc)|(Hm & _)].
  - rewrite (act_stage_requested_norm _ _ _ _ _ H1) in *.
    split; [reflexivity|]. by apply sync_cond_iff.
  - vm_compute in Hm. discriminate Hm.
Qed.

(** X13: the deprecation warning is printed only when the migration
    takes place: [drop_connect_rate] was given with the value printed,
    which is not [None] and which the conversion [%f] accepted, and
    [drop_path_rate] was absent or [None]. *)
Theorem create_model_deprecation_warning c name p n i path s e j kwargs v :
  In (EvPrint deprecation_message v)
     (trace (create_model c name p n i path s e j kwargs)) ->
  kwargs !! "drop_connect_rate" = Some v
  /\ v <> VNone
  /\ percent_f c v = Converts
  /\ (kwargs !! "drop_path_rate" = None \/ kwargs !! "drop_path_rate" = Some VNone).
Proof.
  intros [(Hm & _)|(_ & kw1 & kw2 & H1 & H2 & Hv & Hnn & Hdpr & Hreal)]%prep_events.
  { vm_compute in Hm. discriminate Hm. }
  apply norm_stage_inv in H2 as (norm & _ & ->).
  unfold dict_get in Hv, Hdpr.
  rewrite lookup_delete_ne, lookup_insert_ne in Hdpr by done.
  rewrite lookup_insert_ne in Hv by done.
  rewrite (act_stage_frame _ _ _ _ _ "drop_connect_rate" H1) in Hv by done.
  rewrite (act_stage_frame _ _ _ _ _ "drop_path_rate" H1) in Hdpr by done.
  destruct (kwargs !! "drop_connect_rate") as [d|]; cbn in Hv; subst v;
    [|discriminate].
  split; [reflexivity|]. split; [by intros ->|]. split; [exact Hreal|].
  destruct (kwargs !! "drop_path_rate") as [[]|]; cbn in Hdpr; try discriminate; auto.
Qed.

(** X14: without a [drop_connect_rate], or with [drop_connect_rate]
    [None], no warning is printed, the constructor gets no
    [drop_connect_rate], and [drop_path_rate] reaches it as given (not
    at all when it is [None] or absent). *)
Theorem create_model_drop_path_untouched c name p n i path s e j kwargs nm a :
  let run := create_model c name p n i path s e j kwargs in
  kwargs !! "drop_connect_rate" = None
  \/ kwargs !! "drop_connect_rate" = Some VNone ->
  (forall v, ~ In (EvPrint deprecation_message v) (trace run))
  /\ (In (EvConstruct nm a) (trace run) ->
      a !! "drop_connect_rate" = None
      /\ a !! "drop_path_rate" =
         match kwargs !! "drop_path_rate" with
         | Some v => if is_none v then None else Some v
         | None => None
         end).
Proof.
  intros run Hdcr. split.
  - intros v [(Hm & _)|(_ & kw1 & kw2 & H1 & H2 & Hv & Hnn & _)]%prep_events.
    { vm_compute in Hm. discriminate Hm. }
    apply norm_stage_inv in H2 as (norm & _ & ->).
    unfold dict_get in Hv. rewrite lookup_insert_ne in Hv by done.
    rewrite (act_stage_frame _ _ _ _ _ "drop_connect_rate" H1) in Hv by done.
    destruct Hdcr as [Hd|Hd]; rewrite Hd in Hv; cbn in Hv; subst v; discriminate.
  - intros Hin.
    exact (construct_without_drop_connect _ _ _ _ _ _ _ _ _ _ _ _ Hdcr Hin).
Qed.

(** X15: the defaults ['relu'] and ['BN'] stand in for absent keywords
    only: [get_act_layer] is called on the [act_layer] given, be it
    [None], and [get_norm] on the name resolved from the [norm_layer]
    given, be it [None]. *)
Theorem create_model_defaults_only_when_absent
    c name p n i path s e j kwargs :
  let run := create_model c name p n i path s e j kwargs in
  let gpus := get_world_size c in
  (kwargs !! "act_layer" = None ->
     forall u, In (EvGetActLayer u) (trace run) -> u = VStr "relu")
  /\ (forall v, kwargs !! "act_layer" = Some v ->
        forall u, In (EvGetActLayer u) (trace run) -> u = v)
  /\ (kwargs !! "norm_layer" = None ->
        forall u, In (EvGetNorm u) (trace run) -> u = resolved_norm gpus (VStr "BN"))
  /\ (forall v, kwargs !! "norm_layer" = Some v ->
        forall u, In (EvGetNorm u) (trace run) -> u = resolved_norm gpus v).
Proof.
  intros run gpus.
  assert (forall u, In (EvGetNorm u) (trace run) ->
            u = resolved_norm gpus (dict_get "norm_layer" (VStr "BN") kwargs)) as Hnorm.
  { intros u (kw1 & H1 & ->)%prep_events.
    by rewrite (act_stage_requested_norm _ _ _ _ _ H1). }
  split; [|split; [|split]].
  - intros Ha u [_ ->]%act_layer_event. unfold dict_get. by rewrite Ha.
  - intros v Ha u [_ ->]%act_layer_event. unfold dict_get. by rewrite Ha.
  - intros Hn u ->%Hnorm. unfold dict_get. by rewrite Hn.
  - intros v Hn u ->%Hnorm. unfold dict_get. by rewrite Hn.
Qed.

(** X16: line 68 keeps exactly the entries whose value is not [None],
    with their values; filtering twice changes nothing more. *)
Theorem drop_none_spec (d : kwargs_t) :
  (forall (k : string) v, drop_none d !! k = Some v <-> d !! k = Some v /\ v <> VNone)
  /\ drop_none (drop_none d) = drop_none d.
Proof.
  assert (forall (d' : kwargs_t) (k : string) v,
            drop_none d' !! k = Some v <-> d' !! k = Some v /\ v <> VNone) as Hspec.
  { intros d' k v. rewrite lookup_drop_none.
    destruct (d' !! k) as [[]|]; cbn; split;
      try (intros [= <-]; split; [reflexivity|discriminate]);
      try (intros [[= <-] ?]; done); try discriminate; try (intros [? ?]; done). }
  split; [apply Hspec|].
  apply map_eq. intros k. apply option_eq. intros v.
  rewrite !Hspec. tauto.
Qed.

(** X17: a constructor reached from [build_backbone] is the one
    registered as [cfg.MODEL.BACKBONE]; it receives [num_classes] and
    [in_chans] from the configuration, [global_pool] when
    [cfg.MODEL.POOLING_LAYER] is not [None], and no keyword other than
    [pretrained], [num_classes], [in_chans], [act_layer], [norm_layer]
    and [global_pool]. *)
Theorem build_backbone_keywords c (cfg : cfg_node) nm a :
  In (EvConstruct nm a) (trace (build_backbone c cfg)) ->
  nm = BACKBONE (MODEL cfg)
  /\ a !! "num_classes" = Some (CLASSES (MODEL cfg))
  /\ a !! "in_chans" = Some (INPUT_CHANNEL (TRAIN cfg))
  /\ a !! "global_pool" =
     (if is_none (POOLING_LAYER (MODEL cfg)) then None
      else Some (POOLING_LAYER (MODEL cfg)))
  /\ (forall k : string, is_Some (a !! k) ->
        In k ["pretrained"; "num_classes"; "in_chans";
              "act_layer"; "norm_layer"; "global_pool"]).
Proof.
  destruct (build_backbone_call c cfg) as (sc & nj & ->). intros Hin.
  destruct (constructor_positional _ _ _ _ _ _ _ _ _ _ _ _ Hin) as (_ & Hn & Hi).
  split; [by apply construct_iff in Hin as (-> & _)|].
  split; [exact Hn|]. split; [exact Hi|]. split.
  - rewrite (construct_frame _ _ _ _ _ _ _ _ _ _ _ _ "global_pool" Hin);
      [|cbn; intros [H|[H|[H|[H|[H|[H|[H|[]]]]]]]]; discriminate H|done..].
    unfold backbone_kwargs. by rewrite lookup_insert_eq.
  - intros k Hk.
    destruct (decide (k = "drop_path_rate")) as [->|Hne].
    { destruct (construct_without_drop_connect _ _ _ _ _ _ _ _ _
                  (backbone_kwargs cfg) _ _ (or_introl eq_refl) Hin) as [_ Hdpr].
      rewrite Hdpr in Hk. by destruct Hk. }
    apply (construct_domain _ _ _ _ _ _ _ _ _ _ _ _ _ Hin) in Hk as [Hk|Hk].
    + unfold backbone_kwargs in Hk. destruct Hk as [x Hk].
      apply lookup_insert_Some in Hk as [[<- _]|[_ Hk]]; [cbn; tauto|].
      apply lookup_insert_Some in Hk as [[<- _]|[_ Hk]]; [cbn; tauto|].
      apply lookup_insert_Some in Hk as [[<- _]|[_ Hk]]; [cbn; tauto|].
      by rewrite lookup_empty in Hk.
    + cbn in Hk. destruct Hk as [<-|[<-|[<-|[<-|[<-|[<-|[]]]]]]]; cbn; tauto.
Qed.

(** the call that [build_backbone] makes, with its flags *)
Lemma build_backbone_call_flags c (cfg : cfg_node) :
  let opt := OPT (MODEL cfg) in
  build_backbone c cfg =
  create_model c (BACKBONE (MODEL cfg)) (VBool true) (CLASSES (MODEL cfg))
    (INPUT_CHANNEL (TRAIN cfg)) (BACKBONE_WEIGHTS (MODEL cfg))
    (VBool (py_eq_str opt "infer" || py_eq_str opt "jit")) (VBool false)
    (VBool (py_eq_str opt "infer")) (backbone_kwargs cfg).
Proof.
  intros opt. unfold build_backbone. fold opt.
  destruct (py_eq_str opt "infer"); [reflexivity|].
  destruct (py_eq_str opt "jit"); reflexivity.
Qed.

(** X18: [build_backbone] loads a checkpoint only from
    [cfg.MODEL.BACKBONE_WEIGHTS], only when that is not empty, and only
    into the model that the constructor registered as
    [cfg.MODEL.BACKBONE] returned in this run, under the layer
    configuration that [cfg.MODEL.OPT] selects. *)
Theorem build_backbone_checkpoint c (cfg : cfg_node) m path' :
  let opt := OPT (MODEL cfg) in
  let lc := LayerConfig (VBool (py_eq_str opt "infer" || py_eq_str opt "jit"))
              (VBool false) (VBool (py_eq_str opt "infer")) in
  In (EvLoadCheckpoint m path') (trace (build_backbone c cfg)) ->
  path' = BACKBONE_WEIGHTS (MODEL cfg)
  /\ BACKBONE_WEIGHTS (MODEL cfg) <> ""
  /\ is_model c (BACKBONE (MODEL cfg)) = true
  /\ exists a,
       In (EvConstruct (BACKBONE (MODEL cfg)) a) (trace (build_backbone c cfg))
       /\ model_entrypoint c (BACKBONE (MODEL cfg)) lc a = inr m.
Proof.
  intros opt lc. rewrite (build_backbone_call_flags c cfg). fold opt.
  intros (-> & Hne & Hreg & a & Hin & Hm)%load_event. eauto 10.
Qed.

(** X19: under [build_backbone] the layer names always come from the
    configuration, never from the defaults of [create_model]:
    [get_act_layer] is called on [cfg.MODEL.ACTIVATE] and [get_norm] on
    the name resolved from [cfg.MODEL.NORM_LAYER], also when these are
    [None]. *)
Theorem build_backbone_layers_from_cfg c (cfg : cfg_node) :
  (forall u, In (EvGetActLayer u) (trace (build_backbone c cfg)) ->
     u = ACTIVATE (MODEL cfg))
  /\ (forall u, In (EvGetNorm u) (trace (build_backbone c cfg)) ->
     u = resolved_norm (get_world_size c) (NORM_LAYER (MODEL cfg))).
Proof.
  destruct (build_backbone_call c cfg) as (sc & nj & ->). split.
  - intros u [_ ->]%act_layer_event. unfold dict_get, backbone_kwargs.
    rewrite lookup_insert_ne by done. by rewrite lookup_insert_eq.
  - intros u (kw1 & H1 & ->)%prep_events.
    rewrite (act_stage_requested_norm _ _ _ _ _ H1).
    unfold dict_get, backbone_kwargs.
    rewrite !lookup_insert_ne by done. by rewrite lookup_insert_eq.
Qed.

(** * Progress: when the constructor is reached *)

(** the three stages go through when the layer helpers return and the
    conversion [%f] accepts the rate it is asked to print *)
Lemma stages_progress c name lc kwargs :
  is_model_in_modules c name ["efficientnet"; "mobilenetv3"] = true
  \/ (exists layer,
        get_act_layer c lc (dict_get "act_layer" (VStr "relu") kwargs) = inr layer) ->
  (exists norm,
     get_norm c (resolved_norm (get_world_size c)
                   (dict_get "norm_layer" (VStr "BN") kwargs)) = inr norm) ->
  (forall d, kwargs !! "drop_connect_rate" = Some d -> d <> VNone ->
     kwargs !! "drop_path_rate" = None \/ kwargs !! "drop_path_rate" = Some VNone ->
     percent_f c d = Converts) ->
  exists kw1 kw2 kw3,
    act_stage c name lc kwargs = inr kw1
    /\ norm_stage c kw1 = inr kw2
    /\ drop_stage c kw2 = inr kw3.
Proof.
  intros [kw1 H1]%act_stage_ok [norm Hnorm] Hfmt.
  rewrite <- (act_stage_requested_norm _ _ _ _ _ H1) in Hnorm.
  exists kw1, (<["norm_layer" := norm]> (delete "norm_layer" kw1)).
  assert (norm_stage c kw1 = inr (<["norm_layer" := norm]> (delete "norm_layer" kw1)))
    as H2 by (unfold norm_stage; by rewrite Hnorm).
  unfold drop_stage, dict_get.
  rewrite lookup_delete_ne by done.
  rewrite !lookup_insert_ne, !lookup_delete_ne by done.
  rewrite (act_stage_frame _ _ _ _ _ "drop_connect_rate" H1) by done.
  rewrite (act_stage_frame _ _ _ _ _ "drop_path_rate" H1) by done.
  destruct (negb _ && _) eqn:Hcond; [|eauto].
  apply andb_true_iff in Hcond as [Hd Hp]. apply negb_true_iff in Hd.
  destruct (kwargs !! "drop_connect_rate") as [d|] eqn:Hdcr; [|discriminate].
  cbn in Hd |- *. rewrite (Hfmt d eq_refl).
  - eauto.
  - by intros ->.
  - destruct (kwargs !! "drop_path_rate") as [[]|]; cbn in Hp; try discriminate; auto.
Qed.

(** a keyword that lines 38-63 do not handle goes through the three
    stages untouched *)
Lemma stages_frame c name lc kwargs kw1 kw2 kw3 (k : string) :
  act_stage c name lc kwargs = inr kw1 ->
  norm_stage c kw1 = inr kw2 ->
  drop_stage c kw2 = inr kw3 ->
  ~ In k handled_keywords ->
  kw3 !! k = kwargs !! k.
Proof.
  intros H1 H2 H3 (? & ? & ? & ? & ? & ? & ?)%not_handled.
  apply norm_stage_inv in H2 as (norm & _ & ->).
  rewrite (drop_stage_frame _ _ _ k H3) by done.
  rewrite lookup_insert_ne by done.
  by rewrite (act_stage_frame _ _ _ _ _ k H1).
Qed.

(** after the three stages the constructor of a registered name is
    called, on the positional arguments and what line 68 keeps *)
Lemma construct_progress c name p n i path s e j kwargs kw1 kw2 kw3 :
  is_model c name = true ->
  kwargs !! "pretrained" = None ->
  kwargs !! "num_classes" = None ->
  kwargs !! "in_chans" = None ->
  act_stage c name (LayerConfig s e j) kwargs = inr kw1 ->
  norm_stage c kw1 = inr kw2 ->
  drop_stage c kw2 = inr kw3 ->
  In (EvConstruct name (model_args_of p n i ∪ drop_none kw3))
     (trace (create_model c name p n i path s e j kwargs)).
Proof.
  intros Hreg Hp Hn Hi H1 H2 H3. apply construct_iff.
  split; [reflexivity|]. split; [exact Hreg|].
  exists (drop_none kw3). split; [|split; [|reflexivity]].
  { unfold normalized_kwargs. by rewrite H1, H2, H3. }
  apply map_disjoint_spec. intros k x y Hx Hy.
  rewrite lookup_drop_none in Hy.
  assert (kw3 !! k = None) as Hk.
  { unfold model_args_of in Hx.
    apply lookup_insert_Some in Hx as [[<- _]|[_ Hx]].
    { rewrite (stages_frame _ _ _ _ _ _ _ _ H1 H2 H3); [exact Hi|].
      cbn. intros [H|[H|[H|[H|[H|[H|[H|[]]]]]]]]; discriminate H. }
    apply lookup_insert_Some in Hx as [[<- _]|[_ Hx]].
    { rewrite (stages_frame _ _ _ _ _ _ _ _ H1 H2 H3); [exact Hn|].
      cbn. intros [H|[H|[H|[H|[H|[H|[H|[]]]]]]]]; discriminate H. }
    apply lookup_insert_Some in Hx as [[<- _]|[_ Hx]].
    { rewrite (stages_frame _ _ _ _ _ _ _ _ H1 H2 H3); [exact Hp|].
      cbn. intros [H|[H|[H|[H|[H|[H|[H|[]]]]]]]]; discriminate H. }
    by rewrite lookup_empty in Hx. }
  by rewrite Hk in Hy.
Qed.

(** C7: the constructor always receives [pretrained], [num_classes] and
    [in_chans] as they were given, whatever their value; of the other
    keywords, as they stand after the normalisation, it receives those
    whose value is not [None], unchanged, and none whose value is
    [None]; and the filter does not stop the call: for a registered
    name the constructor is called whenever the layer helpers return
    and the deprecation warning can be formatted, whatever [None]
    values the keywords hold. *)
Theorem create_model_filters_none c name p n i path s e j kwargs :
  let lc := LayerConfig s e j in
  let run := create_model c name p n i path s e j kwargs in
  (forall nm a, In (EvConstruct nm a) (trace run) ->
     a !! "pretrained" = Some p
     /\ a !! "num_classes" = Some n
     /\ a !! "in_chans" = Some i
     /\ (forall k : string,
           k <> "pretrained" -> k <> "num_classes" -> k <> "in_chans" ->
           a !! k <> Some VNone)
     /\ exists kw1 kw2 kw3,
          act_stage c name lc kwargs = inr kw1
          /\ norm_stage c kw1 = inr kw2
          /\ drop_stage c kw2 = inr kw3
          /\ forall k : string,
               k <> "pretrained" -> k <> "num_classes" -> k <> "in_chans" ->
               a !! k =
               match kw3 !! k with
               | Some v => if is_none v then None else Some v
               | None => None
               end)
  /\ (is_model c name = true ->
      kwargs !! "pretrained" = None ->
      kwargs !! "num_classes" = None ->
      kwargs !! "in_chans" = None ->
      is_model_in_modules c name ["efficientnet"; "mobilenetv3"] = true
      \/ (exists layer,
            get_act_layer c lc (dict_get "act_layer" (VStr "relu") kwargs) = inr layer) ->
      (exists norm,
         get_norm c (resolved_norm (get_world_size c)
                       (dict_get "norm_layer" (VStr "BN") kwargs)) = inr norm) ->
      (forall d, kwargs !! "drop_connect_rate" = Some d -> d <> VNone ->
         kwargs !! "drop_path_rate" = None \/ kwargs !! "drop_path_rate" = Some VNone ->
         percent_f c d = Converts) ->
      exists a, In (EvConstruct name a) (trace run)).
Proof.
  intros lc run. split.
  - intros nm a Hin.
    destruct (constructor_positional _ _ _ _ _ _ _ _ _ _ _ _ Hin) as (Hp & Hn & Hi).
    apply construct_stages in Hin
      as (-> & _ & kw1 & kw2 & kw3 & H1 & H2 & H3 & _ & ->).
    split; [exact Hp|]. split; [exact Hn|]. split; [exact Hi|]. split.
    + intros k ? ? ?. rewrite constructor_lookup by done.
      by destruct (kw3 !! k) as [[]|].
    + exists kw1, kw2, kw3. split; [exact H1|]. split; [exact H2|].
      split; [exact H3|]. intros k ? ? ?. by apply constructor_lookup.
  - intros Hreg Hp Hn Hi Hact Hnorm Hfmt.
    destruct (stages_progress c name lc kwargs Hact Hnorm Hfmt)
      as (kw1 & kw2 & kw3 & H1 & H2 & H3).
    eexists. by apply (construct_progress c name p n i path s e j kwargs kw1 kw2 kw3).
Qed.

(** C4 (amended): with a [drop_connect_rate] that is not [None] in
    [kwargs], the constructor never receives a [drop_connect_rate]
    keyword; it receives the supplied [drop_path_rate] when that is not
    [None]; when [drop_path_rate] is absent or [None] it receives
    [drop_path_rate] equal to the given [drop_connect_rate], which the
    conversion [%f] of the warning has then accepted.  For a registered
    name the constructor is called whenever the layer helpers return and,
    in the case that migrates, [%f] accepts the rate; when [%f] does not
    accept it in that case, the call raises and no constructor is
    called. *)
Theorem create_model_drop_connect_migration
    c name p n i path s e j kwargs dcr :
  let lc := LayerConfig s e j in
  let run := create_model c name p n i path s e j kwargs in
  kwargs !! "drop_connect_rate" = Some dcr ->
  dcr <> VNone ->
  (forall nm a, In (EvConstruct nm a) (trace run) ->
     a !! "drop_connect_rate" = None
     /\ (kwargs !! "drop_path_rate" = None \/ kwargs !! "drop_path_rate" = Some VNone ->
         a !! "drop_path_rate" = Some dcr /\ percent_f c dcr = Converts)
     /\ (forall dpr, kwargs !! "drop_path_rate" = Some dpr -> dpr <> VNone ->
         a !! "drop_path_rate" = Some dpr))
  /\ (is_model c name = true ->
      kwargs !! "pretrained" = None ->
      kwargs !! "num_classes" = None ->
      kwargs !! "in_chans" = None ->
      is_model_in_modules c name ["efficientnet"; "mobilenetv3"] = true
      \/ (exists layer,
            get_act_layer c lc (dict_get "act_layer" (VStr "relu") kwargs) = inr layer) ->
      (exists norm,
         get_norm c (resolved_norm (get_world_size c)
                       (dict_get "norm_layer" (VStr "BN") kwargs)) = inr norm) ->
      (kwargs !! "drop_path_rate" = None \/ kwargs !! "drop_path_rate" = Some VNone ->
       percent_f c dcr = Converts) ->
      exists a, In (EvConstruct name a) (trace run))
  /\ (kwargs !! "drop_path_rate" = None \/ kwargs !! "drop_path_rate" = Some VNone ->
      percent_f c dcr <> Converts ->
      (exists err, outcome run = inl err)
      /\ forall nm a, ~ In (EvConstruct nm a) (trace run)).
Proof.
  intros lc run Hdcr Hnn.
  assert (forall kw1 kw2,
            act_stage c name lc kwargs = inr kw1 -> norm_stage c kw1 = inr kw2 ->
            kw2 !! "drop_connect_rate" = Some dcr
            /\ kw2 !! "drop_path_rate" = kwargs !! "drop_path_rate") as Hkw2.
  { intros kw1 kw2 H1 (norm & _ & ->)%norm_stage_inv.
    rewrite !lookup_insert_ne by done.
    rewrite (act_stage_frame _ _ _ _ _ "drop_connect_rate" H1) by done.
    by rewrite (act_stage_frame _ _ _ _ _ "drop_path_rate" H1). }
  split; [|split].
  - intros nm a (-> & _ & kw1 & kw2 & kw3 & H1 & H2 & H3 & _ & ->)%construct_stages.
    destruct (Hkw2 kw1 kw2 H1 H2) as [Hc Hpth].
    assert (kwargs !! "drop_path_rate" = None \/ kwargs !! "drop_path_rate" = Some VNone ->
            percent_f c dcr = Converts) as Hconv.
    { intros Hd. pose proof H3 as H3'. unfold drop_stage, dict_get in H3'.
      rewrite lookup_delete_ne in H3' by done. rewrite Hc, Hpth in H3'.
      cbn [from_option id] in H3'.
      assert (negb (is_none dcr) = true) as Hx by (by destruct dcr).
      assert (is_none (from_option id VNone (kwargs !! "drop_path_rate")) = true) as Hy
        by (by destruct Hd as [-> | ->]).
      rewrite Hx, Hy in H3'. cbn [andb] in H3'.
      by destruct (percent_f c dcr). }
    rewrite !constructor_lookup by done.
    rewrite (drop_stage_connect _ _ _ H3), (drop_stage_path _ _ _ H3).
    unfold dict_get. rewrite Hc, Hpth. cbn [from_option id].
    split; [reflexivity|]. split.
    + intros Hd. split; [|by apply Hconv].
      destruct Hd as [-> | ->]; cbn [from_option id]; by destruct dcr.
    + intros dpr -> Hdpr. cbn [from_option id]. destruct dcr, dpr; done.
  - intros Hreg Hp Hn Hi Hact Hnorm Hfmt.
    destruct (stages_progress c name lc kwargs Hact Hnorm)
      as (kw1 & kw2 & kw3 & H1 & H2 & H3).
    { intros d Hd _ Hnone. rewrite Hdcr in Hd. injection Hd as <-. auto. }
    eexists. by apply (construct_progress c name p n i path s e j kwargs kw1 kw2 kw3).
  - intros Hnone Hbad.
    assert (exists err, normalized_kwargs c name lc kwargs = inl err) as [err Herr].
    { unfold normalized_kwargs.
      destruct (act_stage _ _ _ _) as [e1|kw1] eqn:H1; [eauto|].
      destruct (norm_stage c kw1) as [e2|kw2] eqn:H2; [eauto|].
      destruct (Hkw2 kw1 kw2 eq_refl H2) as [Hc Hpth].
      unfold drop_stage, dict_get. rewrite lookup_delete_ne by done.
      rewrite Hc, Hpth. cbn [from_option id].
      assert (negb (is_none dcr) = true) as -> by (by destruct dcr).
      assert (is_none (from_option id VNone (kwargs !! "drop_path_rate")) = true) as ->
        by (by destruct Hnone as [-> | ->]).
      cbn [andb]. destruct (percent_f c dcr); [done|eauto..]. }
    destruct (normalization_failure c name p n i path s e j kwargs err Herr)
      as (Hout & _ & Hnc & _).
    split; [eauto|exact Hnc].
Qed.

End Facts.

Ltac sample_call :=
  apply construct_intro; vm_compute; reflexivity.

(** ** Runs of the sample environment *)

Example resnet_plain :
  In (EvConstruct "resnet50"
        (default_args ∪ dict [("act_layer", VObj 11); ("norm_layer", VObj 1)]))
     (trace (create_model_default (sample_env 1) "resnet50" "" ∅)).
Proof. sample_call. Qed.

Example unknown_model_run :
  create_model_default (sample_env 1) "vgg16" "" ∅
  = ([EvEnterLayerConfig default_config; EvGetActLayer (VStr "relu");
      EvExitLayerConfig default_config; EvGetNorm (VStr "BN");
      EvEnterLayerConfig default_config; EvExitLayerConfig default_config],
     inl (RuntimeError "Unknown model (vgg16)")).
Proof. vm_compute. reflexivity. Qed.

Example multi_gpu_run :
  let a := default_args ∪ dict [("act_layer", VObj 11); ("norm_layer", VObj 2)] in
  create_model_default (sample_env 2) "resnet50" "weights.pth"
    (dict [("norm_layer", VStr "BN")])
  = ([EvEnterLayerConfig default_config; EvGetActLayer (VStr "relu");
      EvExitLayerConfig default_config;
      EvPrint "conver norm_layer {} to SyncBN" (VStr "BN");
      EvGetNorm (VStr "SyncBN");
      EvEnterLayerConfig default_config; EvEntrypoint "resnet50";
      EvConstruct "resnet50" a; EvExitLayerConfig default_config;
      EvLoadCheckpoint ("resnet50", a) "weights.pth"],
     inr ("resnet50", a)).
Proof. vm_compute. reflexivity. Qed.

Example drop_connect_not_a_number :
  outcome (create_model_default (sample_env 1) "resnet50" ""
             (dict [("drop_connect_rate", VStr "0.2")]))
  = inl TypeError.
Proof. vm_compute. reflexivity. Qed.

Example unknown_norm_name :
  create_model_default (sample_env 1) "resnet50" "" (dict [("norm_layer", VStr "LN")])
  = ([EvEnterLayerConfig default_config; EvGetActLayer (VStr "relu");
      EvExitLayerConfig default_config; EvGetNorm (VStr "LN")],
     inl (Propagated "KeyError")).
Proof. vm_compute. reflexivity. Qed.

Example resnet_multi_gpu :
  In (EvConstruct "resnet50"
        (default_args ∪ dict [("act_layer", VObj 11); ("norm_layer", VObj 2)]))
     (trace (create_model_default (sample_env 2) "resnet50" ""
               (dict [("norm_layer", VStr "BN")]))).
Proof. sample_call. Qed.

Example resnet_empty_norm :
  In (EvConstruct "resnet50" (default_args ∪ dict [("act_layer", VObj 11)]))
     (trace (create_model_default (sample_env 1) "resnet50" ""
               (dict [("norm_layer", VStr "")]))).
Proof. sample_call. Qed.

Example resnet_checkpoint :
  In (EvConstruct "resnet50"
        (default_args ∪ dict [("act_layer", VObj 11); ("norm_layer", VObj 1)]))
     (trace (create_model_default (sample_env 1) "resnet50" "weights.pth" ∅)).
Proof. sample_call. Qed.

Example resnet_drop_connect :
  In (EvConstruct "resnet50"
        (default_args ∪ dict [("act_layer", VObj 11); ("norm_layer", VObj 1);
                              ("drop_path_rate", VInt 1)]))
     (trace (create_model_default (sample_env 1) "resnet50" ""
               (dict [("drop_connect_rate", VInt 1); ("drop_path_rate", VNone)]))).
Proof. sample_call. Qed.

Example resnet_bn_keywords :
  In (EvConstruct "resnet50"
        (default_args ∪ dict [("act_layer", VObj 12); ("norm_layer", VObj 1)]))
     (trace (create_model_default (sample_env 1) "resnet50" ""
               (dict [("act_layer", VStr "swish"); ("bn_tf", VBool true)]))).
Proof. sample_call. Qed.


Example efficientnet_bn_keywords :
  In (EvConstruct "efficientnet_b0"
        (default_args ∪ dict [("bn_tf", VBool false); ("norm_layer", VObj 1)]))
     (trace (create_model_default (sample_env 1) "efficientnet_b0" ""
               (dict [("bn_tf", VBool false); ("bn_momentum", VNone);
                      ("bn_eps", VNone)]))).
Proof. sample_call. Qed.

(** ** The claims at the sample environment *)

(** C1 at an unregistered and at a registered name *)
Lemma create_model_registry_dispatch_witness :
  (exists err, outcome (create_model_default (sample_env 1) "vgg16" "" ∅) = inl err)
  /\ In (EvConstruct "resnet50"
           (default_args ∪ dict [("act_layer", VObj 11); ("norm_layer", VObj 1)]))
        (trace (create_model_default (sample_env 1) "resnet50" "" ∅)).
Proof.
  split.
  - apply (create_model_registry_dispatch (sample_env 1) "vgg16"
             (VBool false) (VInt 1000) (VInt 3) "" VNone VNone VNone ∅).
    reflexivity.
  - apply (create_model_registry_dispatch (sample_env 1) "resnet50"
             (VBool false) (VInt 1000) (VInt 3) "" VNone VNone VNone ∅).
    + reflexivity.
    + vm_compute. reflexivity.
    + refine (bool_decide_eq_true_1 _ _). vm_compute. reflexivity.
Defined.

(** C2 with two processes and [norm_layer='BN']: the constructor
    receives the layer of ['SyncBN'] *)
Lemma create_model_norm_layer_witness :
  exists norm,
    get_norm (sample_env 2) (VStr "SyncBN") = inr norm
    /\ (default_args ∪ dict [("act_layer", VObj 11); ("norm_layer", VObj 2)])
         !! "norm_layer" = Some norm.
Proof.
  destruct (create_model_norm_layer (sample_env 2) "resnet50"
              (VBool false) (VInt 1000) (VInt 3) "" VNone VNone VNone
              (dict [("norm_layer", VStr "BN")]) _ _ resnet_multi_gpu)
    as (norm & Hsync & _ & Hsome & _).
  assert (sync_needed 2 (VStr "BN")) as Hneed.
  { split; [reflexivity|]. cbn. intros [H|[H|[H|[]]]]; discriminate H. }
  specialize (Hsync Hneed). exists norm. split; [exact Hsync|].
  apply Hsome. intros ->. discriminate Hsync.
Defined.

(** C3 with [checkpoint_path='weights.pth'] *)
Lemma create_model_checkpoint_witness :
  let a := default_args ∪ dict [("act_layer", VObj 11); ("norm_layer", VObj 1)] in
  In (EvLoadCheckpoint ("resnet50", a) "weights.pth")
     (trace (create_model_default (sample_env 1) "resnet50" "weights.pth" ∅))
  /\ outcome (create_model_default (sample_env 1) "resnet50" "weights.pth" ∅)
     = inr ("resnet50", a).
Proof.
  intros a.
  destruct (create_model_checkpoint (sample_env 1) "resnet50"
              (VBool false) (VInt 1000) (VInt 3) "weights.pth" VNone VNone VNone
              ∅ _ _ ("resnet50", a) resnet_checkpoint eq_refl)
    as (_ & _ & Hload & _ & _ & _ & Hout).
  split.
  - apply Hload. discriminate.
  - destruct Hout as [Hout|(err & _ & Herr & _)]; [exact Hout|discriminate Herr].
Defined.


(** C8 outside and inside the efficientnet module *)
Lemma create_model_bn_keywords_witness :
  (default_args ∪ dict [("act_layer", VObj 12); ("norm_layer", VObj 1)]) !! "bn_tf"
  = None
  /\ (default_args ∪ dict [("bn_tf", VBool false); ("norm_layer", VObj 1)]) !! "bn_tf"
     = Some (VBool false).
Proof.
  split.
  - destruct (create_model_bn_keywords (sample_env 1) "resnet50"
                (VBool false) (VInt 1000) (VInt 3) "" VNone VNone VNone
                (dict [("act_layer", VStr "swish"); ("bn_tf", VBool true)])
                _ _ resnet_bn_keywords) as [Hout _].
    apply (Hout eq_refl).
  - destruct (create_model_bn_keywords (sample_env 1) "efficientnet_b0"
                (VBool false) (VInt 1000) (VInt 3) "" VNone VNone VNone
                (dict [("bn_tf", VBool false); ("bn_momentum", VNone);
                       ("bn_eps", VNone)])
                _ _ efficientnet_bn_keywords) as [_ Heff].
    destruct (Heff eq_refl) as [_ Hkeys].
    apply (Hkeys "bn_tf").
    + left. reflexivity.
    + vm_compute. reflexivity.
    + discriminate.
Defined.

Example backbone_constructs :
  In (EvConstruct "resnet50"
        (model_args_of (VBool true) (VInt 10) (VInt 3)
         ∪ dict [("act_layer", VObj 11); ("norm_layer", VObj 1);
                 ("global_pool", VStr "avg")]))
     (trace (build_backbone (sample_env 1) (sample_cfg (VStr "infer")))).
Proof.
  apply (construct_intro (sample_env 1) "resnet50" (VBool true) (VInt 10) (VInt 3)
           "weights.pth" (VBool true) (VBool false) (VBool true)
           (backbone_kwargs (sample_cfg (VStr "infer"))));
    vm_compute; reflexivity.
Qed.

(** C6 with [OPT = 'infer'] and with [OPT = None] *)
Lemma build_backbone_flags_witness :
  build_backbone (sample_env 1) (sample_cfg (VStr "infer"))
  = create_model (sample_env 1) "resnet50" (VBool true) (VInt 10) (VInt 3)
      "weights.pth" (VBool true) (VBool false) (VBool true)
      (backbone_kwargs (sample_cfg (VStr "infer")))
  /\ build_backbone (sample_env 1) (sample_cfg VNone)
     = create_model (sample_env 1) "resnet50" (VBool true) (VInt 10) (VInt 3)
         "weights.pth" (VBool false) (VBool false) (VBool false)
         (backbone_kwargs (sample_cfg VNone)).
Proof.
  split.
  - apply (build_backbone_flags (sample_env 1) (sample_cfg (VStr "infer"))).
    reflexivity.
  - apply (build_backbone_flags (sample_env 1) (sample_cfg VNone)); discriminate.
Defined.

(** C9 on the sample configuration *)
Lemma build_backbone_pretrained_witness :
  (model_args_of (VBool true) (VInt 10) (VInt 3)
   ∪ dict [("act_layer", VObj 11); ("norm_layer", VObj 1);
           ("global_pool", VStr "avg")]) !! "pretrained" = Some (VBool true).
Proof.
  destruct (build_backbone_pretrained (sample_env 1) (sample_cfg (VStr "infer")))
    as [_ Hpre].
  exact (Hpre "resnet50" _ backbone_constructs).
Defined.

(** ** Where the claims as stated fail *)

(** C2 as stated fails: with one process and [norm_layer=''], the layer
    helper of the sample environment returns [None] for the empty name,
    line 68 drops the entry, and the constructor is called without any
    [norm_layer] keyword, not with [norm_layer = get_norm('')]. *)
Lemma norm_layer_none_counterexample :
  let c := sample_env 1 in
  let kwargs := dict [("norm_layer", VStr "")] in
  ~ (forall nm a,
       In (EvConstruct nm a) (trace (create_model_default c "resnet50" "" kwargs)) ->
       exists norm,
         get_norm c (dict_get "norm_layer" (VStr "BN") kwargs) = inr norm
         /\ a !! "norm_layer" = Some norm).
Proof.
  intros c kwargs Hclaim.
  destruct (Hclaim _ _ resnet_empty_norm) as (norm & Hnorm & Ha).
  vm_compute in Hnorm. injection Hnorm as <-.
  vm_compute in Ha. discriminate Ha.
Qed.


(** C8 as stated fails: for a model of the efficientnet module called
    with [bn_tf=False, bn_momentum=None, bn_eps=None], the constructor
    receives [bn_tf] but neither [bn_momentum] nor [bn_eps]: the two
    [None] entries do not pass through. *)
Lemma bn_none_dropped_counterexample :
  let c := sample_env 1 in
  let kwargs := dict [("bn_tf", VBool false); ("bn_momentum", VNone);
                      ("bn_eps", VNone)] in
  ~ (forall nm a,
       In (EvConstruct nm a)
          (trace (create_model_default c "efficientnet_b0" "" kwargs)) ->
       forall k, In k ["bn_tf"; "bn_momentum"; "bn_eps"] -> a !! k = kwargs !! k).
Proof.
  intros c kwargs Hclaim.
  pose proof (Hclaim _ _ efficientnet_bn_keywords "bn_momentum") as Ha.
  cbn [In] in Ha. specialize (Ha (or_intror (or_introl eq_refl))).
  vm_compute in Ha. discriminate Ha.
Qed.

(** C4 as stated fails: with [drop_connect_rate='0.2'] and no
    [drop_path_rate], for a registered name and helpers that return,
    line 61 cannot format the warning and raises; no constructor is
    called, so none receives [drop_path_rate='0.2']. *)
Lemma drop_connect_string_counterexample :
  let c := sample_env 1 in
  let kwargs := dict [("drop_connect_rate", VStr "0.2")] in
  let run := create_model_default c "resnet50" "" kwargs in
  ~ (exists nm a,
       In (EvConstruct nm a) (trace run)
       /\ a !! "drop_path_rate" = Some (VStr "0.2")
       /\ a !! "drop_connect_rate" = None).
Proof.
  intros c kwargs run (nm & a & Hin & _).
  apply construct_iff in Hin as (_ & _ & kw & Hkw & _).
  vm_compute in Hkw. discriminate Hkw.
Qed.

(** ** More runs of the sample environment *)

(** an equation between closed terms, checked by evaluation *)
Ltac by_vm :=
  lazymatch goal with
  | |- _ = ?r => vm_cast_no_check (@eq_refl _ r)
  end.

Ltac fast_call := apply construct_intro; by_vm.

Example drop_connect_run :
  let a := default_args ∪ dict [("act_layer", VObj 11); ("norm_layer", VObj 1);
                                ("drop_path_rate", VInt 1)] in
  create_model_default (sample_env 1) "resnet50" ""
    (dict [("drop_connect_rate", VInt 1); ("drop_path_rate", VNone)])
  = ([EvEnterLayerConfig default_config; EvGetActLayer (VStr "relu");
      EvExitLayerConfig default_config; EvGetNorm (VStr "BN");
      EvPrint deprecation_message (VInt 1);
      EvEnterLayerConfig default_config; EvEntrypoint "resnet50";
      EvConstruct "resnet50" a; EvExitLayerConfig default_config],
     inr ("resnet50", a)).
Proof. cbv zeta. by_vm. Qed.

Example explicit_none_run :
  let a := default_args ∪ dict [("norm_layer", VObj 1)] in
  create_model_default (sample_env 1) "resnet50" "" (dict [("act_layer", VNone)])
  = ([EvEnterLayerConfig default_config; EvGetActLayer VNone;
      EvExitLayerConfig default_config; EvGetNorm (VStr "BN");
      EvEnterLayerConfig default_config; EvEntrypoint "resnet50";
      EvConstruct "resnet50" a; EvExitLayerConfig default_config],
     inr ("resnet50", a)).
Proof. cbv zeta. by_vm. Qed.

Example backbone_run :
  let lc := LayerConfig (VBool true) (VBool false) (VBool true) in
  let a := model_args_of (VBool true) (VInt 10) (VInt 3)
           ∪ dict [("act_layer", VObj 11); ("norm_layer", VObj 1);
                   ("global_pool", VStr "avg")] in
  build_backbone (sample_env 1) (sample_cfg (VStr "infer"))
  = ([EvEnterLayerConfig lc; EvGetActLayer (VStr "relu"); EvExitLayerConfig lc;
      EvGetNorm (VStr "BN");
      EvEnterLayerConfig lc; EvEntrypoint "resnet50";
      EvConstruct "resnet50" a; EvExitLayerConfig lc;
      EvLoadCheckpoint ("resnet50", a) "weights.pth"],
     inr ("resnet50", a)).
Proof. cbv zeta. by_vm. Qed.

Example drop_connect_too_large :
  outcome (create_model_default (sample_env 1) "resnet50" ""
             (dict [("drop_connect_rate", VInt (10 ^ 400))]))
  = inl OverflowError.
Proof. by_vm. Qed.

Example resnet_missing_checkpoint :
  In (EvConstruct "resnet50"
        (default_args ∪ dict [("act_layer", VObj 11); ("norm_layer", VObj 1)]))
     (trace (create_model_default (sample_env 1) "resnet50" "missing.pth" ∅)).
Proof. fast_call. Qed.

Example resnet_global_pool :
  In (EvConstruct "resnet50"
        (default_args ∪ dict [("act_layer", VObj 11); ("norm_layer", VObj 1);
                              ("global_pool", VStr "avg")]))
     (trace (create_model_default (sample_env 1) "resnet50" ""
               (dict [("global_pool", VStr "avg"); ("drop_rate", VNone)]))).
Proof. fast_call. Qed.

Example picky_rejects_depth :
  In (EvConstruct "resnet50"
        (default_args ∪ dict [("act_layer", VObj 11); ("norm_layer", VObj 1);
                              ("depth", VInt 50)]))
     (trace (create_model_default (picky_env 1) "resnet50" "weights.pth"
               (dict [("depth", VInt 50)]))).
Proof. fast_call. Qed.

Example checkpoint_outcome :
  outcome (create_model_default (sample_env 1) "resnet50" "weights.pth" ∅)
  = inr ("resnet50",
         default_args ∪ dict [("act_layer", VObj 11); ("norm_layer", VObj 1)]).
Proof. by_vm. Qed.

(** C4 with [drop_connect_rate=1, drop_path_rate=None]: the constructor
    is called and receives the migrated rate *)
Lemma create_model_drop_connect_migration_witness :
  let kwargs := dict [("drop_connect_rate", VInt 1); ("drop_path_rate", VNone)] in
  let run := create_model_default (sample_env 1) "resnet50" "" kwargs in
  exists a,
    In (EvConstruct "resnet50" a) (trace run)
    /\ a !! "drop_connect_rate" = None
    /\ a !! "drop_path_rate" = Some (VInt 1).
Proof.
  intros kwargs run.
  destruct (create_model_drop_connect_migration (sample_env 1) "resnet50"
              (VBool false) (VInt 1000) (VInt 3) "" VNone VNone VNone
              kwargs (VInt 1))
    as (Hsafe & Hprogress & _).
  - vm_compute. reflexivity.
  - discriminate.
  - destruct Hprogress as [a Hin].
    + vm_compute. reflexivity.
    + vm_compute. reflexivity.
    + vm_compute. reflexivity.
    + vm_compute. reflexivity.
    + right. exists (VObj 11). vm_compute. reflexivity.
    + exists (VObj 1). vm_compute. reflexivity.
    + intros _. vm_compute. reflexivity.
    + exists a. destruct (Hsafe _ _ Hin) as (Hgone & Hmoved & _).
      split; [exact Hin|]. split; [exact Hgone|].
      apply Hmoved. right. vm_compute. reflexivity.
Defined.

(** C7 with [global_pool='avg', drop_rate=None]: the constructor is
    called, with the positional arguments and [global_pool], and without
    [drop_rate] *)
Lemma create_model_filters_none_witness :
  let kwargs := dict [("global_pool", VStr "avg"); ("drop_rate", VNone)] in
  let run := create_model_default (sample_env 1) "resnet50" "" kwargs in
  kwargs !! "drop_rate" = Some VNone
  /\ exists a,
       In (EvConstruct "resnet50" a) (trace run)
       /\ a !! "pretrained" = Some (VBool false)
       /\ a !! "num_classes" = Some (VInt 1000)
       /\ a !! "in_chans" = Some (VInt 3)
       /\ a !! "global_pool" = Some (VStr "avg")
       /\ a !! "drop_rate" = None.
Proof.
  intros kwargs run. split; [vm_compute; reflexivity|].
  destruct (create_model_filters_none (sample_env 1) "resnet50"
              (VBool false) (VInt 1000) (VInt 3) "" VNone VNone VNone kwargs)
    as (Hsafe & Hprogress).
  destruct Hprogress as [a Hin].
  - vm_compute. reflexivity.
  - vm_compute. reflexivity.
  - vm_compute. reflexivity.
  - vm_compute. reflexivity.
  - right. exists (VObj 11). vm_compute. reflexivity.
  - exists (VObj 1). vm_compute. reflexivity.
  - intros d Hd. vm_compute in Hd. discriminate Hd.
  - exists a.
    destruct (Hsafe _ _ Hin)
      as (Hp & Hn & Hi & _ & kw1 & kw2 & kw3 & H1 & H2 & H3 & Hkept).
    split; [exact Hin|]. split; [exact Hp|]. split; [exact Hn|]. split; [exact Hi|].
    split.
    + rewrite Hkept by discriminate.
      rewrite (stages_frame _ _ _ _ _ _ _ "global_pool" H1 H2 H3).
      * vm_compute. reflexivity.
      * cbn. intros [H|[H|[H|[H|[H|[H|[H|[]]]]]]]]; discriminate H.
    + rewrite Hkept by discriminate.
      rewrite (stages_frame _ _ _ _ _ _ _ "drop_rate" H1 H2 H3).
      * vm_compute. reflexivity.
      * cbn. intros [H|[H|[H|[H|[H|[H|[H|[]]]]]]]]; discriminate H.
Defined.

(** ** The further properties at the sample environment *)

(** X3 on a call that loads a checkpoint *)
Lemma create_model_returns_constructed_witness :
  let a := default_args ∪ dict [("act_layer", VObj 11); ("norm_layer", VObj 1)] in
  is_model (sample_env 1) "resnet50" = true
  /\ load_checkpoint (sample_env 1) ("resnet50", a) "weights.pth" = inr tt.
Proof.
  intros a.
  destruct (create_model_returns_constructed (sample_env 1) "resnet50"
              (VBool false) (VInt 1000) (VInt 3) "weights.pth" VNone VNone VNone
              ∅ ("resnet50", a))
    as (Hreg & kw & _ & _ & _ & Hload).
  - exact checkpoint_outcome.
  - split; [exact Hreg|]. apply Hload. discriminate.
Defined.

(** X4 with a constructor that rejects [depth] *)
Lemma create_model_constructor_raises_witness :
  outcome (create_model_default (picky_env 1) "resnet50" "weights.pth"
             (dict [("depth", VInt 50)]))
  = inl (Propagated "TypeError").
Proof.
  apply (create_model_constructor_raises (picky_env 1) "resnet50"
           (VBool false) (VInt 1000) (VInt 3) "weights.pth" VNone VNone VNone
           (dict [("depth", VInt 50)]) _ _ "TypeError" picky_rejects_depth).
  vm_compute. reflexivity.
Defined.

(** X5 with a checkpoint file that is missing *)
Lemma create_model_load_decides_witness :
  outcome (create_model_default (sample_env 1) "resnet50" "missing.pth" ∅)
  = inl (Propagated "FileNotFoundError").
Proof.
  apply (create_model_load_decides (sample_env 1) "resnet50"
           (VBool false) (VInt 1000) (VInt 3) "missing.pth" VNone VNone VNone
           ∅ _ _ _ resnet_missing_checkpoint eq_refl).
  discriminate.
Defined.

(** X6 with an unknown norm name and an unregistered model name *)
Lemma create_model_norm_error_first_witness :
  outcome (create_model_default (sample_env 1) "vgg16" ""
             (dict [("norm_layer", VStr "LN")]))
  = inl (Propagated "KeyError").
Proof.
  apply (create_model_norm_error_first (sample_env 1) "vgg16"
           (VBool false) (VInt 1000) (VInt 3) "" VNone VNone VNone
           (dict [("norm_layer", VStr "LN")]) "KeyError").
  - right. exists (VObj 11). vm_compute. reflexivity.
  - vm_compute. reflexivity.
Defined.

(** X7 with an unknown activation name *)
Lemma create_model_act_error_first_witness :
  outcome (create_model_default (sample_env 1) "resnet50" ""
             (dict [("act_layer", VStr "gelu")]))
  = inl (Propagated "KeyError").
Proof.
  apply (create_model_act_error_first (sample_env 1) "resnet50"
           (VBool false) (VInt 1000) (VInt 3) "" VNone VNone VNone
           (dict [("act_layer", VStr "gelu")]) "KeyError").
  - vm_compute. reflexivity.
  - vm_compute. reflexivity.
Defined.

(** X8 with [drop_connect_rate='0.2'] *)
Lemma create_model_drop_connect_string_witness :
  let run := create_model_default (sample_env 1) "resnet50" ""
               (dict [("drop_connect_rate", VStr "0.2")]) in
  outcome run = inl TypeError \/ exists err, outcome run = inl (Propagated err).
Proof.
  apply (create_model_drop_connect_string (sample_env 1) "resnet50"
           (VBool false) (VInt 1000) (VInt 3) "" VNone VNone VNone
           (dict [("drop_connect_rate", VStr "0.2")]) "0.2").
  - vm_compute. reflexivity.
  - left. vm_compute. reflexivity.
Defined.

(** X9 with [global_pool='avg'] *)
Lemma create_model_other_keywords_witness :
  (default_args ∪ dict [("act_layer", VObj 11); ("norm_layer", VObj 1);
                        ("global_pool", VStr "avg")]) !! "global_pool"
  = Some (VStr "avg").
Proof.
  etrans.
  - apply (create_model_other_keywords (sample_env 1) "resnet50"
             (VBool false) (VInt 1000) (VInt 3) "" VNone VNone VNone
             (dict [("global_pool", VStr "avg"); ("drop_rate", VNone)])
             _ _ "global_pool" resnet_global_pool).
    + cbn. intros [H|[H|[H|[H|[H|[H|[H|[]]]]]]]]; discriminate H.
    + discriminate.
    + discriminate.
    + discriminate.
  - vm_compute. reflexivity.
Defined.

(** X10 on the same call *)
Lemma create_model_keyword_domain_witness :
  is_Some (dict [("global_pool", VStr "avg"); ("drop_rate", VNone)] !! "global_pool")
  \/ In "global_pool" ["pretrained"; "num_classes"; "in_chans";
                       "act_layer"; "norm_layer"; "drop_path_rate"].
Proof.
  apply (create_model_keyword_domain (sample_env 1) "resnet50"
           (VBool false) (VInt 1000) (VInt 3) "" VNone VNone VNone
           (dict [("global_pool", VStr "avg"); ("drop_rate", VNone)])
           _ _ "global_pool" resnet_global_pool).
  exists (VStr "avg"). vm_compute. reflexivity.
Defined.

(** X11 on a call with two processes and a checkpoint *)
Lemma create_model_loads_only_constructed_witness :
  "weights.pth" <> "" /\ is_model (sample_env 2) "resnet50" = true.
Proof.
  destruct (create_model_loads_only_constructed (sample_env 2) "resnet50"
              (VBool false) (VInt 1000) (VInt 3) "weights.pth" VNone VNone VNone
              (dict [("norm_layer", VStr "BN")])
              ("resnet50",
               default_args ∪ dict [("act_layer", VObj 11); ("norm_layer", VObj 2)])
              "weights.pth")
    as (_ & Hne & Hreg & _).
  - pose proof multi_gpu_run as Hrun. cbv zeta in Hrun.
    unfold create_model_default in Hrun. rewrite Hrun.
    cbn [trace fst In]. auto 12.
  - split; [exact Hne|exact Hreg].
Defined.

(** X12 on the same call *)
Lemma create_model_conversion_message_witness :
  sync_needed 2 (dict_get "norm_layer" (VStr "BN") (dict [("norm_layer", VStr "BN")])).
Proof.
  apply (create_model_conversion_message (sample_env 2) "resnet50"
           (VBool false) (VInt 1000) (VInt 3) "weights.pth" VNone VNone VNone
           (dict [("norm_layer", VStr "BN")]) (VStr "BN")).
  pose proof multi_gpu_run as Hrun. cbv zeta in Hrun.
  unfold create_model_default in Hrun. rewrite Hrun.
  cbn [trace fst In]. auto 12.
Defined.

(** X13 with [drop_connect_rate=1, drop_path_rate=None] *)
Lemma create_model_deprecation_warning_witness :
  dict [("drop_connect_rate", VInt 1); ("drop_path_rate", VNone)] !! "drop_connect_rate"
  = Some (VInt 1)
  /\ percent_f (sample_env 1) (VInt 1) = Converts.
Proof.
  destruct (create_model_deprecation_warning (sample_env 1) "resnet50"
              (VBool false) (VInt 1000) (VInt 3) "" VNone VNone VNone
              (dict [("drop_connect_rate", VInt 1); ("drop_path_rate", VNone)])
              (VInt 1))
    as (Hgiven & _ & Hreal & _).
  - pose proof drop_connect_run as Hrun. cbv zeta in Hrun.
    unfold create_model_default in Hrun. rewrite Hrun.
    cbn [trace fst In]. auto 12.
  - split; [exact Hgiven|exact Hreal].
Defined.

(** X14 on a call without keywords *)
Lemma create_model_drop_path_untouched_witness :
  (default_args ∪ dict [("act_layer", VObj 11); ("norm_layer", VObj 1)])
    !! "drop_connect_rate" = None.
Proof.
  destruct (create_model_drop_path_untouched (sample_env 1) "resnet50"
              (VBool false) (VInt 1000) (VInt 3) "" VNone VNone VNone ∅
              "resnet50"
              (default_args ∪ dict [("act_layer", VObj 11); ("norm_layer", VObj 1)]))
    as [_ Hkw].
  - left. vm_compute. reflexivity.
  - apply (Hkw resnet_plain).
Defined.

(** X15 on a call without [norm_layer]: [get_norm] is called on ['BN'] *)
Lemma create_model_defaults_only_when_absent_witness :
  VStr "BN" = resolved_norm (get_world_size (sample_env 1)) (VStr "BN").
Proof.
  destruct (create_model_defaults_only_when_absent (sample_env 1) "resnet50"
              (VBool false) (VInt 1000) (VInt 3) "" VNone VNone VNone
              (dict [("act_layer", VNone)]))
    as (_ & _ & Habsent & _).
  pose proof explicit_none_run as Hrun. cbv zeta in Hrun.
  unfold create_model_default in Hrun. rewrite Hrun in Habsent.
  apply Habsent.
  - vm_compute. reflexivity.
  - cbn [trace fst In]. auto 12.
Defined.

(** X17 on the sample configuration *)
Lemma build_backbone_keywords_witness :
  (model_args_of (VBool true) (VInt 10) (VInt 3)
   ∪ dict [("act_layer", VObj 11); ("norm_layer", VObj 1);
           ("global_pool", VStr "avg")]) !! "num_classes" = Some (VInt 10).
Proof.
  apply (build_backbone_keywords (sample_env 1) (sample_cfg (VStr "infer"))
           "resnet50" _ backbone_constructs).
Defined.

(** X18 on the sample configuration *)
Lemma build_backbone_checkpoint_witness :
  let lc := LayerConfig (VBool true) (VBool false) (VBool true) in
  let m := ("resnet50",
            model_args_of (VBool true) (VInt 10) (VInt 3)
            ∪ dict [("act_layer", VObj 11); ("norm_layer", VObj 1);
                    ("global_pool", VStr "avg")]) in
  is_model (sample_env 1) "resnet50" = true
  /\ exists a, model_entrypoint (sample_env 1) "resnet50" lc a = inr m.
Proof.
  intros lc m.
  destruct (build_backbone_checkpoint (sample_env 1) (sample_cfg (VStr "infer"))
              m "weights.pth")
    as (_ & _ & Hreg & a & _ & Hm).
  - pose proof backbone_run as Hrun. cbv zeta in Hrun. rewrite Hrun.
    cbn [trace fst In]. auto 12.
  - split; [exact Hreg|]. exists a. exact Hm.
Defined.

(** X19 on the sample configuration *)
Lemma build_backbone_layers_from_cfg_witness :
  VStr "relu" = ACTIVATE (MODEL (sample_cfg (VStr "infer"))).
Proof.
  apply (build_backbone_layers_from_cfg (sample_env 1) (sample_cfg (VStr "infer"))).
  pose proof backbone_run as Hrun. cbv zeta in Hrun. rewrite Hrun.
  cbn [trace fst In]. auto 12.
Defined.
